(** * Wind turbine grid simulator: the wind-energy and building-coverage
      arithmetic of [windturbinesimOB25D.js]

    The script runs on a hosted raster platform.  Its per-pixel expressions
    are embedded here as functions on the pixel value at the clicked point,
    and its client-side handlers ([renderVisuals], the [Map.onClick]
    callback) as functions on an explicit world record holding [APP_STATE]
    and the widgets they write to.  The click handler is in two parts: what
    it does at once, and what its [evaluate] callbacks do when the platform
    answers, which is later and on whatever the world has become by then.

    Numbers are the script's floating-point numbers idealised as real
    numbers: rounding, overflow and NaN are outside this model. *)

From Stdlib Require Import Reals Lra Lia ZArith List Bool Machin QArith_base.
From Stdlib Require Import Sorted.
Import ListNotations.

Set Implicit Arguments.
Open Scope R_scope.

(** ** 1. Configuration: [CONFIG.PHYSICS] and [CONFIG.DATA] *)

Module CONFIG.

Definition ROTOR_DIAMETER_M : R := 120.
Definition SYSTEM_EFFICIENCY : R := 0.40.
Definition AIR_DENSITY : R := 1.225.
Definition MIN_WPD_THRESHOLD : R := 200.
Definition MAX_GENERATION_KW : R := 3000.

Definition CONFIDENCE_THRESHOLD : R := 0.7.
Definition MIN_HEIGHT_M : R := 1.5.

End CONFIG.

(** ** 2. Pixel arithmetic of the raster platform, at one pixel *)

Module Px.

(** [a.lt(b)] and [a.gt(b)]: the platform's 0/1 masks, kept as booleans, so
    that [a.or(b)] is [orb]. *)
Definition lt (a b : R) : bool := if Rlt_dec a b then true else false.
Definition gt (a b : R) : bool := if Rlt_dec b a then true else false.

(** [u.hypot(v)] *)
Definition hypot (u v : R) : R := sqrt (u * u + v * v).

(** [input.where(test, value)]: the value where the test holds, the input
    elsewhere. *)
Definition where_ (input : R) (test : bool) (value : R) : R :=
  if test then value else input.

End Px.

(** ** 3. One weather image at the clicked point, and what the script
       derives from it (the function mapped over [dailyImages]) *)

(** The two bands the script selects: [100m_u_component_of_wind] and
    [100m_v_component_of_wind]. *)
Record WindImage : Type := mkWind { wind_u : R; wind_v : R }.

(** The two bands of the image returned by the mapped function. *)
Record Bands : Type := mkBands { WPD : R; Generation_KW : R }.

Definition speed (img : WindImage) : R := Px.hypot (wind_u img) (wind_v img).

(** [speed.pow(3).multiply(0.5 * AIR_DENSITY)] *)
Definition wpd (img : WindImage) : R :=
  speed img ^ 3 * (0.5 * CONFIG.AIR_DENSITY).

Definition radius : R := CONFIG.ROTOR_DIAMETER_M / 2.0.
Definition area : R := PI * (radius * radius).

(** [wpd.multiply(area).multiply(SYSTEM_EFFICIENCY)] *)
Definition rawPowerW (img : WindImage) : R :=
  wpd img * area * CONFIG.SYSTEM_EFFICIENCY.

(** The test of the [where]: [speed.lt(3).or(speed.gt(25))]. *)
Definition outsideCurve (img : WindImage) : bool :=
  Px.lt (speed img) 3 || Px.gt (speed img) 25.

(** [rawPowerW.divide(1000).min(MAX_GENERATION_KW).where(..., 0)] *)
Definition generationKW (img : WindImage) : R :=
  Px.where_ (Rmin (rawPowerW img / 1000) CONFIG.MAX_GENERATION_KW)
            (outsideCurve img) 0.

(** [wpd.addBands(generationKW)] *)
Definition processImage (img : WindImage) : Bands :=
  mkBands (wpd img) (generationKW img).

(** ** 4. The daily time series

    [weatherSeries.filterDate(dayStart, dayEnd)] is taken as given: a
    function from the day number to that day's images at the point. *)

Fixpoint Rsum (xs : list R) : R :=
  match xs with
  | [] => 0
  | x :: rest => x + Rsum rest
  end.

(** The script only ever averages a non-empty collection: days without
    images and a series without records are set aside before. *)
Definition mean (xs : list R) : R := Rsum xs / INR (length xs).

(** [processed.mean().reduceRegion(mean, point)]: the mean of each band over
    the day's images; no value (null) for a day without images. *)
Definition dayMeans (dailyImages : list WindImage) : option Bands :=
  match dailyImages with
  | [] => None
  | _ :: _ =>
      let processed := map processImage dailyImages in
      Some (mkBands (mean (map WPD processed))
                    (mean (map Generation_KW processed)))
  end.

(** A feature of the time series.  A property is [None] when it is null. *)
Record Feature : Type := mkFeature {
  time_start : nat;
  prop_WPD : option R;
  prop_Daily_KWh_Per_Turbine : option R
}.

Definition dayFeature (weatherSeries : nat -> list WindImage) (n : nat)
  : Feature :=
  let means := dayMeans (weatherSeries n) in
  mkFeature n
    (option_map WPD means)
    (option_map (fun g => g * 24) (option_map Generation_KW means)).

(** [ee.Filter.notNull(['WPD'])] *)
Definition notNull_WPD (f : Feature) : bool :=
  match prop_WPD f with Some _ => true | None => false end.

(** [ee.List.sequence(0, 364).map(...)], then the filter. *)
Definition dailyData (weatherSeries : nat -> list WindImage) : list Feature :=
  filter notNull_WPD (map (dayFeature weatherSeries) (seq 0 365)).

Fixpoint propValues (prop : Feature -> option R) (fs : list Feature)
  : list R :=
  match fs with
  | [] => []
  | f :: rest =>
      match prop f with
      | Some x => x :: propValues prop rest
      | None => propValues prop rest
      end
  end.

(** [collection.aggregate_mean(property)] *)
Definition aggregate_mean (prop : Feature -> option R) (fs : list Feature)
  : R :=
  mean (propValues prop fs).

(** ** 5. Client-side state: [APP_STATE] and the widgets *)

Definition Point : Type := (R * R)%type.

(** The building raster is a server-side expression; the client holds its
    description: the latest mosaic clipped to [point.buffer(5000)] and masked
    by the two thresholds. *)
Record Raster : Type := mkRaster {
  clipCenter : Point;
  clipRadius : R;
  minConfidence : R;
  minHeight : R
}.

Module APP.

Record State : Type := mkState {
  wpd : R;
  kwhPerTurbine : R;
  buildings : Z;
  hasData : bool;
  timeSeriesData : option (list Feature);
  buildingRaster : option Raster;
  centerPoint : option Point
}.

(** The object literal assigned to [APP_STATE] at start-up and at each
    click. *)
Definition empty : State :=
  mkState 0 0 0%Z false None None None.

End APP.

(** [ui.Slider({min, max, value, step})] *)
Record Slider : Type := mkSlider {
  smin : R;
  smax : R;
  svalue : R;
  sstep : R
}.

Definition getValue (s : Slider) : R := svalue s.

(** The k-th stop of a slider, and the move of its handle there; a stop
    beyond [max] cannot be selected. *)
Definition stop (s : Slider) (k : nat) : R := smin s + INR k * sstep s.

Definition moveTo (s : Slider) (k : nat) : option Slider :=
  if Rle_dec (stop s k) (smax s)
  then Some (mkSlider (smin s) (smax s) (stop s k) (sstep s))
  else None.

Inductive Tier : Type := Basic | StandardHousehold | HeavyIndustrial.

Inductive ParamLabel : Type :=
| TurbLabelInitial
| TurbLabel (tVal : R)
| LoadLabelInitial
| LoadLabel (lVal : R) (tier : Tier).

Inductive Quality : Type := Poor | Good | Excellent.
Inductive Color : Type := black | orange | green | red.

(** [pctText]: either the fixed text ['>100%'] or [toFixed(1)] of the
    percentage, kept as a signed number of tenths. *)
Inductive PctText : Type :=
| Over100
| Tenths (n : Z).

(** The labels the script puts on [statsPanel], with the numbers they
    show. *)
Inductive StatsLabel : Type :=
| Scanning
| NoWindData
| ResourceHeader
| Resource (rounded : Z) (quality : Quality) (color : Color)
| FeasibilityHeader
| AvgGeneration (rounded : Z)
| PotentialCoverage (homes : Z) (total : Z)
| StatusFull
| StatusPartial (pct : PctText).

Inductive Layer : Type :=
| TurbineLocation (p : option Point)
| PoweredHouseholds (seed : Z) (threshold : R) (raster : Raster).

Inductive Chart : Type :=
| HousesChart (rows : list (nat * option Z))
| WpdChart (rows : list (nat * option R * R)).

Record World : Type := mkWorld {
  APP_STATE : APP.State;
  turbSlider : Slider;
  loadSlider : Slider;
  turbLabel : ParamLabel;
  loadLabel : ParamLabel;
  statsPanel : list StatsLabel;
  chartPanel : list Chart;
  layers : list Layer
}.

Definition world0 : World :=
  mkWorld APP.empty
          (mkSlider 1 10 1 1)
          (mkSlider 0.5 30 1.5 0.5)
          TurbLabelInitial LoadLabelInitial [] [] [].

(** What a handler can end with: normally, or with an uncaught error. *)
Inductive JsError : Type := TypeError.

Inductive Outcome (A : Type) : Type :=
| Ok (a : A)
| Throw (e : JsError).

Arguments Ok {A} a.
Arguments Throw {A} e.

Definition bind {A B : Type} (m : Outcome A) (k : A -> Outcome B)
  : Outcome B :=
  match m with
  | Ok a => k a
  | Throw e => Throw e
  end.

(** ** 6. [renderVisuals]: feasibility, layers, labels, charts *)

(** [Math.round] and [toFixed(1)] on the idealised numbers. *)
Definition Math_round (x : R) : Z := Zfloor (x + 0.5).

Definition toFixed1 (x : R) : Z :=
  if Rlt_dec x 0 then (- Zfloor (- x * 10 + 0.5))%Z
  else Zfloor (x * 10 + 0.5).

Section Feasibility.

Variable st : APP.State.
Variables numTurbines consumption : R.

Definition totalDailyKWh : R := APP.kwhPerTurbine st * numTurbines.

Definition homesSupported : Z := Zfloor (totalDailyKWh / consumption).

Definition coverageRatio : R :=
  if (0 <? APP.buildings st)%Z
  then IZR homesSupported / IZR (APP.buildings st)
  else 0.

Definition cappedRatio : R := Rmin coverageRatio 1.0.

Definition pctVal : R := coverageRatio * 100.

Definition pctText : PctText :=
  if Rle_dec 100 pctVal then Over100 else Tenths (toFixed1 pctVal).

Definition statusLabel : StatsLabel :=
  if Rle_dec 100 pctVal then StatusFull else StatusPartial pctText.

Definition wpdColor : Color :=
  if Rlt_dec (APP.wpd st) 200 then black
  else if Rlt_dec (APP.wpd st) 400 then orange else green.

Definition quality : Quality :=
  if Rlt_dec (APP.wpd st) 200 then Poor
  else if Rlt_dec (APP.wpd st) 400 then Good else Excellent.

Definition renderedLayers : list Layer :=
  TurbineLocation (APP.centerPoint st) ::
  match APP.buildingRaster st with
  | Some raster => [PoweredHouseholds 42 cappedRatio raster]
  | None => []
  end.

Definition renderedStats : list StatsLabel :=
  [ ResourceHeader;
    Resource (Math_round (APP.wpd st)) quality wpdColor;
    FeasibilityHeader;
    AvgGeneration (Math_round totalDailyKWh);
    PotentialCoverage homesSupported (APP.buildings st);
    statusLabel ].

(** The two [timeSeriesData.map] callbacks. *)
Definition housesRow (f : Feature) : nat * option Z :=
  (time_start f,
   option_map (fun dailyGen => Zfloor (dailyGen * numTurbines / consumption))
              (prop_Daily_KWh_Per_Turbine f)).

Definition wpdRow (f : Feature) : nat * option R * R :=
  (time_start f, prop_WPD f, CONFIG.MIN_WPD_THRESHOLD).

Definition renderedCharts (series : list Feature) : list Chart :=
  [ HousesChart (map housesRow series); WpdChart (map wpdRow series) ].

End Feasibility.

(** [renderVisuals()].  Calling [map] on a null [timeSeriesData] is the one
    place where the function can throw. *)
Definition renderVisuals (w : World) : Outcome World :=
  let st := APP_STATE w in
  if negb (APP.hasData st) then Ok w
  else
    let numTurbines := getValue (turbSlider w) in
    let consumption := getValue (loadSlider w) in
    match APP.timeSeriesData st with
    | None => Throw TypeError
    | Some series =>
        Ok (mkWorld st (turbSlider w) (loadSlider w)
                    (turbLabel w) (loadLabel w)
                    (renderedStats st numTurbines consumption)
                    (renderedCharts numTurbines consumption series)
                    (renderedLayers st numTurbines consumption))
    end.

(** [onParamsChange] *)
Definition tierOf (lVal : R) : Tier :=
  if Rlt_dec lVal 1 then Basic
  else if Rlt_dec lVal 5 then StandardHousehold else HeavyIndustrial.

Definition onParamsChange (w : World) : Outcome World :=
  let tVal := getValue (turbSlider w) in
  let lVal := getValue (loadSlider w) in
  renderVisuals
    (mkWorld (APP_STATE w) (turbSlider w) (loadSlider w)
             (TurbLabel tVal) (LoadLabel lVal (tierOf lVal))
             (statsPanel w) (chartPanel w) (layers w)).

(** ** 6b. The feasibility arithmetic on JavaScript numbers

    The real numbers above have no infinity and no NaN, and a division by
    zero is not visible in them.  The lines that compute the coverage are
    therefore embedded a second time, over numbers that have both. *)

Module Js.

(** A JavaScript number: a finite value, an infinity, or NaN.  Finite
    values are idealised reals and zero has no sign. *)
Inductive number : Type :=
| Num (x : R)
| PosInf
| NegInf
| NaN.

(** [a * b] *)
Definition mul (a b : number) : number :=
  match a, b with
  | NaN, _ | _, NaN => NaN
  | Num x, Num y => Num (x * y)
  | Num x, PosInf | PosInf, Num x =>
      if Req_dec_T x 0 then NaN
      else if Rlt_dec 0 x then PosInf else NegInf
  | Num x, NegInf | NegInf, Num x =>
      if Req_dec_T x 0 then NaN
      else if Rlt_dec 0 x then NegInf else PosInf
  | PosInf, PosInf | NegInf, NegInf => PosInf
  | PosInf, NegInf | NegInf, PosInf => NegInf
  end.

(** [a / b]: a finite value divided by zero is an infinity, or NaN when the
    value is zero too. *)
Definition div (a b : number) : number :=
  match a, b with
  | NaN, _ | _, NaN => NaN
  | Num x, Num y =>
      if Req_dec_T y 0
      then (if Req_dec_T x 0 then NaN
            else if Rlt_dec 0 x then PosInf else NegInf)
      else Num (x / y)
  | Num _, PosInf | Num _, NegInf => Num 0
  | PosInf, Num y => if Rlt_dec y 0 then NegInf else PosInf
  | NegInf, Num y => if Rlt_dec y 0 then PosInf else NegInf
  | PosInf, PosInf | PosInf, NegInf
  | NegInf, PosInf | NegInf, NegInf => NaN
  end.

(** [Math.floor(a)] *)
Definition floor (a : number) : number :=
  match a with
  | Num x => Num (IZR (Zfloor x))
  | other => other
  end.

(** [Math.min(a, b)] *)
Definition min (a b : number) : number :=
  match a, b with
  | NaN, _ | _, NaN => NaN
  | NegInf, _ | _, NegInf => NegInf
  | PosInf, other | other, PosInf => other
  | Num x, Num y => Num (Rmin x y)
  end.

(** [a >= b] *)
Definition ge (a b : number) : bool :=
  match a, b with
  | NaN, _ | _, NaN => false
  | PosInf, _ => true
  | _, NegInf => true
  | Num x, Num y => if Rle_dec y x then true else false
  | Num _, PosInf => false
  | NegInf, _ => false
  end.

End Js.

(** Lines 207-215 and 269-276 of [renderVisuals] on these numbers. *)
Module InJs.

Section Feasibility.

Variable st : APP.State.
Variables numTurbines consumption : R.

Definition totalDailyKWh : Js.number :=
  Js.mul (Js.Num (APP.kwhPerTurbine st)) (Js.Num numTurbines).

Definition homesSupported : Js.number :=
  Js.floor (Js.div totalDailyKWh (Js.Num consumption)).

Definition coverageRatio : Js.number :=
  if (0 <? APP.buildings st)%Z
  then Js.div homesSupported (Js.Num (IZR (APP.buildings st)))
  else Js.Num 0.

Definition cappedRatio : Js.number := Js.min coverageRatio (Js.Num 1.0).

Definition pctVal : Js.number := Js.mul coverageRatio (Js.Num 100).

(** The test [pctVal >= 100] that chooses the status label. *)
Definition fullCoverage : bool := Js.ge pctVal (Js.Num 100).

End Feasibility.

End InJs.

(** ** 7. The [Map.onClick] callback *)

(** What the platform answers for a click: the weather series at the point
    and the evaluated [structureCount] ([None] when the dictionary or its
    [building_presence] entry is missing). *)
Record Site : Type := mkSite {
  coords : Point;
  weatherSeries : nat -> list WindImage;
  bCount : option Z
}.

Definition buildingOnlyLayer (point : Point) : Raster :=
  mkRaster point 5000 CONFIG.CONFIDENCE_THRESHOLD CONFIG.MIN_HEIGHT_M.

(** [(bCount && bCount.building_presence) ? bCount.building_presence : 0] *)
Definition buildingsOf (c : option Z) : Z :=
  match c with
  | Some n => if (n =? 0)%Z then 0%Z else n
  | None => 0%Z
  end.

(** What the handler does at once (lines 333-352): it clears both panels,
    shows the scanning note, replaces [APP_STATE] by a fresh object holding
    the clicked point, and puts the site marker on the emptied map. *)
Definition clickStart (point : Point) (w : World) : World :=
  mkWorld (APP.mkState 0 0 0%Z false None None (Some point))
          (turbSlider w) (loadSlider w) (turbLabel w) (loadLabel w)
          [Scanning] [] [TurbineLocation (Some point)].

(** What the nested [evaluate] callbacks do (lines 405-453) when the
    platform answers.  They run on the world as it is at that time: with no
    record they replace the content of the stats panel by the error; with
    records the innermost callback writes the figures, the series and the
    raster of its own click into the [APP_STATE] current by then, whose
    [centerPoint] it leaves as it finds it, and renders.  The callbacks in
    between change nothing of the world. *)
Definition onAnswer (site : Site) (w : World) : Outcome World :=
  let point := coords site in
  let series := dailyData (weatherSeries site) in
  if (length series =? 0)%nat then
    Ok (mkWorld (APP_STATE w) (turbSlider w) (loadSlider w)
                (turbLabel w) (loadLabel w)
                [NoWindData] (chartPanel w) (layers w))
  else
    let meanWPD := aggregate_mean prop_WPD series in
    let meanGen := aggregate_mean prop_Daily_KWh_Per_Turbine series in
    renderVisuals
      (mkWorld (APP.mkState meanWPD meanGen (buildingsOf (bCount site)) true
                            (Some series)
                            (Some (buildingOnlyLayer point))
                            (APP.centerPoint (APP_STATE w)))
               (turbSlider w) (loadSlider w) (turbLabel w) (loadLabel w)
               (statsPanel w) (chartPanel w) (layers w)).

(** A click that is answered before anything else happens. *)
Definition onClick (site : Site) (w : World) : Outcome World :=
  onAnswer site (clickStart (coords site) w).

(** ** 8. Sessions: what the user can do, and the worlds it leads to *)

(** A session is a list of events.  The answer to a click is an event of
    its own: it comes after its click, and other clicks, other answers and
    slider moves can come in between.  The lists below are not restricted
    to those in which every answer follows its click; what is proved of
    all lists holds of these. *)
Inductive Event : Type :=
| Click (point : Point)
| Answer (site : Site)
| SlideTurbines (k : nat)
| SlideLoad (k : nat).

Definition handle (e : Event) (w : World) : Outcome World :=
  match e with
  | Click point => Ok (clickStart point w)
  | Answer site => onAnswer site w
  | SlideTurbines k =>
      match moveTo (turbSlider w) k with
      | Some s =>
          onParamsChange
            (mkWorld (APP_STATE w) s (loadSlider w) (turbLabel w)
                     (loadLabel w) (statsPanel w) (chartPanel w) (layers w))
      | None => Ok w
      end
  | SlideLoad k =>
      match moveTo (loadSlider w) k with
      | Some s =>
          onParamsChange
            (mkWorld (APP_STATE w) (turbSlider w) s (turbLabel w)
                     (loadLabel w) (statsPanel w) (chartPanel w) (layers w))
      | None => Ok w
      end
  end.

Fixpoint run (es : list Event) (w : World) : Outcome World :=
  match es with
  | [] => Ok w
  | e :: rest => bind (handle e w) (run rest)
  end.

Definition reachable (w : World) : Prop :=
  exists es, run es world0 = Ok w.

(** A slider created with the given range and step, whose handle sits on
    one of its stops. *)
Definition sliderOf (lo hi step : R) (s : Slider) : Prop :=
  smin s = lo /\ smax s = hi /\ sstep s = step /\
  lo <= svalue s <= hi /\
  exists k : nat, svalue s = lo + INR k * step.

(** What holds of the widgets and of [APP_STATE] throughout a session. *)
Definition consistent (w : World) : Prop :=
  sliderOf 1 10 1 (turbSlider w) /\
  sliderOf 0.5 30 0.5 (loadSlider w) /\
  (APP.hasData (APP_STATE w) = true ->
   APP.timeSeriesData (APP_STATE w) <> None).

(** The parts of a world that a handler shows or records. *)
Definition outputs (w : World)
  : APP.State * list StatsLabel * list Chart * list Layer :=
  (APP_STATE w, statsPanel w, chartPanel w, layers w).

(** ** 9. Conditions on a world, used to state what sessions preserve *)

(** The recorded figures are physically possible: a non-negative power
    density, and a daily energy between 0 and 24 hours at nameplate. *)
Definition plausible (st : APP.State) : Prop :=
  0 <= APP.wpd st /\
  0 <= APP.kwhPerTurbine st <= 24 * CONFIG.MAX_GENERATION_KW.

(** The stored raster is a building mask clipped around some point. *)
Definition rasterClipped (st : APP.State) : Prop :=
  forall raster, APP.buildingRaster st = Some raster ->
                 raster = buildingOnlyLayer (clipCenter raster).

(** With data, the charts and the map show what [renderVisuals] computes
    from the current [APP_STATE] and the current slider values, and so
    does the stats panel unless a late answer has put the error there. *)
Definition liveDisplay (w : World) : Prop :=
  let st := APP_STATE w in
  let n := getValue (turbSlider w) in
  let c := getValue (loadSlider w) in
  exists series,
    APP.timeSeriesData st = Some series /\
    chartPanel w = renderedCharts n c series /\
    layers w = renderedLayers st n c /\
    (statsPanel w = renderedStats st n c \/ statsPanel w = [NoWindData]).

(** Without data, nothing is charted, the stats panel is empty or holds
    the scanning note or the error, and the map is empty or holds the site
    marker. *)
Definition idleDisplay (w : World) : Prop :=
  chartPanel w = [] /\
  (statsPanel w = [] \/ statsPanel w = [Scanning] \/
   statsPanel w = [NoWindData]) /\
  (layers w = [] \/
   layers w = [TurbineLocation (APP.centerPoint (APP_STATE w))]).

Definition displayed (w : World) : Prop :=
  if APP.hasData (APP_STATE w) then liveDisplay w else idleDisplay w.

(** The two parameter labels are the initial ones over untouched sliders,
    or they show the current slider values. *)
Definition labelled (w : World) : Prop :=
  (turbLabel w = TurbLabelInitial /\
   loadLabel w = LoadLabelInitial /\
   getValue (turbSlider w) = 1 /\
   getValue (loadSlider w) = 1.5) \/
  (turbLabel w = TurbLabel (getValue (turbSlider w)) /\
   loadLabel w = LoadLabel (getValue (loadSlider w))
                           (tierOf (getValue (loadSlider w)))).

Definition coherent (w : World) : Prop :=
  plausible (APP_STATE w) /\
  rasterClipped (APP_STATE w) /\
  displayed w /\
  labelled w.

(** The sum of the values charted as [Houses_Powered]. *)
Fixpoint housesTotal (rows : list (nat * option Z)) : Z :=
  match rows with
  | [] => 0%Z
  | (_, Some h) :: rest => (h + housesTotal rest)%Z
  | (_, None) :: rest => housesTotal rest
  end.

(** * Properties *)

(** Decimal literals are rationals injected into the reals; [field] and
    [ring] want them as quotients of integers. *)
Ltac decimals := cbv [Q2R Qnum Qden] in *.

(** ** Pixel comparisons *)

Lemma Px_lt_true a b : Px.lt a b = true <-> a < b.
Proof. unfold Px.lt; destruct (Rlt_dec a b); split; intros; easy. Qed.

Lemma Px_gt_true a b : Px.gt a b = true <-> b < a.
Proof. unfold Px.gt; destruct (Rlt_dec b a); split; intros; easy. Qed.

Lemma outsideCurve_true img :
  outsideCurve img = true <-> speed img < 3 \/ speed img > 25.
Proof.
  unfold outsideCurve.
  rewrite orb_true_iff, Px_lt_true, Px_gt_true.
  reflexivity.
Qed.

Lemma outsideCurve_false img :
  outsideCurve img = false <-> 3 <= speed img <= 25.
Proof.
  split.
  - intros H.
    destruct (Rlt_dec (speed img) 3) as [Hlo | Hlo].
    + assert (outsideCurve img = true) by (apply outsideCurve_true; auto).
      congruence.
    + destruct (Rlt_dec 25 (speed img)) as [Hhi | Hhi].
      * assert (outsideCurve img = true)
          by (apply outsideCurve_true; right; exact Hhi).
        congruence.
      * lra.
  - intros [Hlo Hhi].
    destruct (outsideCurve img) eqn:E; [ | reflexivity ].
    apply outsideCurve_true in E. lra.
Qed.

Lemma speed_nonneg img : 0 <= speed img.
Proof. apply sqrt_pos. Qed.

Lemma area_pos : 0 < area.
Proof.
  unfold area, radius, CONFIG.ROTOR_DIAMETER_M.
  assert (Hpi := PI_RGT_0). nra.
Qed.

Lemma wpd_nonneg img : 0 <= wpd img.
Proof.
  unfold wpd, CONFIG.AIR_DENSITY.
  assert (H := speed_nonneg img).
  assert (0 <= speed img ^ 3) by (apply pow_le; exact H).
  nra.
Qed.

Lemma rawPowerW_nonneg img : 0 <= rawPowerW img.
Proof.
  unfold rawPowerW, CONFIG.SYSTEM_EFFICIENCY.
  assert (Hw := wpd_nonneg img). assert (Ha := area_pos).
  assert (0 <= wpd img * area) by nra.
  nra.
Qed.

Lemma rawPowerW_pos img : 0 < speed img -> 0 < rawPowerW img.
Proof.
  intros Hs.
  unfold rawPowerW, wpd, CONFIG.SYSTEM_EFFICIENCY, CONFIG.AIR_DENSITY.
  assert (Ha := area_pos).
  assert (0 < speed img ^ 3) by (apply pow_lt; exact Hs).
  assert (0 < speed img ^ 3 * (0.5 * 1.225)) by nra.
  assert (0 < speed img ^ 3 * (0.5 * 1.225) * area) by nra.
  nra.
Qed.

(** The raw electrical power in kW, written out from its physical
    constants. *)
Lemma rawPower_formula u v :
  rawPowerW (mkWind u v) / 1000 =
  (0.5 * 1.225 * sqrt (u * u + v * v) ^ 3) * (PI * (60 * 60)) * 0.40 / 1000.
Proof.
  unfold rawPowerW, wpd, area, radius, speed, Px.hypot; simpl.
  unfold CONFIG.AIR_DENSITY, CONFIG.ROTOR_DIAMETER_M, CONFIG.SYSTEM_EFFICIENCY.
  decimals. field.
Qed.

(** ** The power curve *)

Lemma generationKW_outside u v :
  sqrt (u * u + v * v) < 3 \/ sqrt (u * u + v * v) > 25 ->
  generationKW (mkWind u v) = 0.
Proof.
  intros H. unfold generationKW.
  assert (E : outsideCurve (mkWind u v) = true)
    by (apply outsideCurve_true; exact H).
  rewrite E. reflexivity.
Qed.

Lemma generationKW_inside u v :
  3 <= sqrt (u * u + v * v) <= 25 ->
  generationKW (mkWind u v) =
  Rmin ((0.5 * 1.225 * sqrt (u * u + v * v) ^ 3)
        * (PI * (60 * 60)) * 0.40 / 1000) 3000.
Proof.
  intros H. unfold generationKW.
  assert (E : outsideCurve (mkWind u v) = false)
    by (apply outsideCurve_false; exact H).
  rewrite E. cbn [Px.where_].
  rewrite rawPower_formula. reflexivity.
Qed.

(** C1: for a sample with components u and v and speed = sqrt(u² + v²), the
    generation is 0 when the speed is strictly below 3 m/s or strictly above
    25 m/s, and otherwise it is the minimum of the raw electrical power in kW
    and the 3000 kW cap. *)
Theorem power_curve (u v : R) :
  let s := sqrt (u * u + v * v) in
  let rawPowerKW :=
    (0.5 * 1.225 * s ^ 3) * (PI * (60 * 60)) * 0.40 / 1000 in
  (s < 3 \/ s > 25 -> generationKW (mkWind u v) = 0) /\
  (~ (s < 3 \/ s > 25) ->
   generationKW (mkWind u v) = Rmin rawPowerKW 3000).
Proof.
  intros s rawPowerKW. split; intros H.
  - apply generationKW_outside. exact H.
  - apply generationKW_inside. fold s. lra.
Qed.

Lemma sqrt_0_0 : sqrt (0 * 0 + 0 * 0) = 0.
Proof.
  replace (0 * 0 + 0 * 0) with 0 by ring. apply sqrt_0.
Qed.

Lemma sqrt_3_4 : sqrt (3 * 3 + 4 * 4) = 5.
Proof.
  replace (3 * 3 + 4 * 4) with (5 * 5) by ring.
  apply sqrt_square. lra.
Qed.

Lemma power_curve_witness :
  generationKW (mkWind 0 0) = 0 /\
  generationKW (mkWind 3 4) =
  Rmin ((0.5 * 1.225 * sqrt (3 * 3 + 4 * 4) ^ 3)
        * (PI * (60 * 60)) * 0.40 / 1000) 3000.
Proof.
  split.
  - apply (proj1 (power_curve 0 0)).
    left. rewrite sqrt_0_0. lra.
  - apply (proj2 (power_curve 3 4)).
    rewrite sqrt_3_4. lra.
Defined.

Lemma generationKW_bounds img :
  0 <= generationKW img <= CONFIG.MAX_GENERATION_KW.
Proof.
  unfold generationKW, Px.where_, CONFIG.MAX_GENERATION_KW.
  destruct (outsideCurve img).
  - lra.
  - assert (H := rawPowerW_nonneg img).
    split.
    + apply Rmin_glb; lra.
    + apply Rmin_r.
Qed.

(** ** Means of bounded values *)

Lemma Rsum_bounds (lo hi : R) (xs : list R) :
  Forall (fun x => lo <= x <= hi) xs ->
  lo * INR (length xs) <= Rsum xs <= hi * INR (length xs).
Proof.
  induction 1 as [ | x rest Hx _ IH ].
  - simpl. lra.
  - cbn [Rsum length]. rewrite S_INR. lra.
Qed.

Lemma mean_bounds (lo hi : R) (xs : list R) :
  xs <> [] ->
  Forall (fun x => lo <= x <= hi) xs ->
  lo <= mean xs <= hi.
Proof.
  intros Hne Hall.
  assert (Hlen : 0 < INR (length xs)).
  { destruct xs as [ | x rest ]; [ congruence | ].
    apply lt_0_INR. simpl. lia. }
  destruct (Rsum_bounds Hall) as [Hlo Hhi].
  unfold mean. split.
  - apply Rmult_le_reg_r with (INR (length xs)); [ exact Hlen | ].
    unfold Rdiv. rewrite Rmult_assoc, Rinv_l by lra. lra.
  - apply Rmult_le_reg_r with (INR (length xs)); [ exact Hlen | ].
    unfold Rdiv. rewrite Rmult_assoc, Rinv_l by lra. lra.
Qed.

Lemma all_generation_bounded imgs :
  Forall (fun x => 0 <= x <= CONFIG.MAX_GENERATION_KW)
         (map Generation_KW (map processImage imgs)).
Proof.
  induction imgs as [ | img rest IH ]; simpl; constructor.
  - apply generationKW_bounds.
  - exact IH.
Qed.

Lemma dayMeans_generation_bounds imgs m :
  dayMeans imgs = Some m ->
  0 <= Generation_KW m <= CONFIG.MAX_GENERATION_KW.
Proof.
  destruct imgs as [ | img rest ]; [ discriminate | ].
  unfold dayMeans. intros [= <-]. cbn [Generation_KW].
  apply mean_bounds.
  - discriminate.
  - apply (all_generation_bounded (img :: rest)).
Qed.

(** C2: for every wind sample, whatever its components, the generation per
    turbine lies between 0 and the 3000 kW nameplate cap; the same holds
    for the mean taken over the samples of any day that has samples. *)
Theorem generation_within_nameplate :
  CONFIG.MAX_GENERATION_KW = 3000 /\
  (forall u v : R, 0 <= generationKW (mkWind u v) <= 3000) /\
  (forall (img : WindImage) (rest : list WindImage),
      exists m, dayMeans (img :: rest) = Some m /\
                0 <= Generation_KW m <= 3000).
Proof.
  split; [ reflexivity | ].
  split; [ intros u v; apply generationKW_bounds | ].
  intros img rest.
  destruct (dayMeans (img :: rest)) as [m | ] eqn:E.
  - exists m. split; [ reflexivity | ].
    apply (dayMeans_generation_bounds _ E).
  - discriminate.
Qed.

(** C10: at a speed of exactly 3 m/s or exactly 25 m/s the sample is not
    zeroed: the generation is the minimum of the raw power in kW and the
    3000 kW cap, and it is strictly positive. *)
Theorem cut_speeds_inclusive (u v : R) :
  let s := sqrt (u * u + v * v) in
  let rawPowerKW :=
    (0.5 * 1.225 * s ^ 3) * (PI * (60 * 60)) * 0.40 / 1000 in
  s = 3 \/ s = 25 ->
  generationKW (mkWind u v) = Rmin rawPowerKW 3000 /\
  0 < generationKW (mkWind u v).
Proof.
  intros s rawPowerKW H.
  assert (Hs : speed (mkWind u v) = s) by reflexivity.
  assert (E : generationKW (mkWind u v) = Rmin rawPowerKW 3000).
  { apply generationKW_inside. fold s. lra. }
  split; [ exact E | ].
  rewrite E. unfold rawPowerKW, s.
  rewrite <- rawPower_formula.
  assert (Hp : 0 < rawPowerW (mkWind u v))
    by (apply rawPowerW_pos; rewrite Hs; lra).
  apply Rmin_glb_lt; lra.
Qed.

Lemma sqrt_3_0 : sqrt (3 * 3 + 0 * 0) = 3.
Proof.
  replace (3 * 3 + 0 * 0) with (3 * 3) by ring.
  apply sqrt_square. lra.
Qed.

Lemma sqrt_0_25 : sqrt (0 * 0 + 25 * 25) = 25.
Proof.
  replace (0 * 0 + 25 * 25) with (25 * 25) by ring.
  apply sqrt_square. lra.
Qed.

Lemma cut_speeds_inclusive_witness :
  0 < generationKW (mkWind 3 0) /\ 0 < generationKW (mkWind 0 25).
Proof.
  split.
  - apply (cut_speeds_inclusive 3 0). left. exact sqrt_3_0.
  - apply (cut_speeds_inclusive 0 25). right. exact sqrt_0_25.
Defined.

(** ** A worked day: one sample with u = 3 and v = 4 *)

Lemma PI_enclosure : 3.141592 < PI < 3.141593.
Proof.
  destruct (PI_2_3_7_ineq 2) as [Hlo _].
  destruct (PI_2_3_7_ineq 3) as [_ Hhi].
  unfold PI_2_3_7_tg, tg_alt, Ratan_seq in Hlo, Hhi.
  cbn [sum_f_R0 Nat.mul Nat.add pow INR] in Hlo, Hhi.
  split; lra.
Qed.

Lemma speed_3_4 : speed (mkWind 3 4) = 5.
Proof. exact sqrt_3_4. Qed.

Lemma wpd_3_4 : wpd (mkWind 3 4) = 76.5625.
Proof.
  unfold wpd. rewrite speed_3_4.
  unfold CONFIG.AIR_DENSITY. simpl pow. lra.
Qed.

Lemma area_enclosure : 11309.73 < area < 11309.74.
Proof.
  unfold area, radius, CONFIG.ROTOR_DIAMETER_M.
  assert (H := PI_enclosure). lra.
Qed.

Lemma rawPowerKW_3_4 : 346.36 < rawPowerW (mkWind 3 4) / 1000 < 346.361.
Proof.
  unfold rawPowerW. rewrite wpd_3_4.
  unfold CONFIG.SYSTEM_EFFICIENCY.
  assert (H := area_enclosure). lra.
Qed.

Lemma generationKW_3_4 :
  generationKW (mkWind 3 4) = rawPowerW (mkWind 3 4) / 1000.
Proof.
  unfold generationKW.
  assert (E : outsideCurve (mkWind 3 4) = false)
    by (apply outsideCurve_false; rewrite speed_3_4; lra).
  rewrite E. unfold Px.where_, CONFIG.MAX_GENERATION_KW.
  apply Rmin_left. assert (H := rawPowerKW_3_4). lra.
Qed.

Lemma mean_single x : mean [x] = x.
Proof. unfold mean; simpl. field. Qed.

(** C6: a day whose only sample has u = 3 and v = 4 has speed 5 m/s, inside
    the power curve.  With the default constants its wind power density is
    76.5625 W/m² (the stated 76.56), the swept area is 11309.7 m² to one
    decimal, the raw power and the generation are both 346.36 kW (the
    stated 346.3 to within 0.1, below the cap), and the daily energy is the
    mean kW output times 24, about 8312.65 kWh (the stated 8311 to within
    2 kWh). *)
Theorem daily_record_single_sample :
  let img := mkWind 3 4 in
  speed img = 5 /\
  (wpd img = 0.5 * 1.225 * 125 /\ Rabs (wpd img - 76.56) < 0.005) /\
  (area = PI * (60 * 60) /\ Rabs (area - 11309.7) < 0.05) /\
  Rabs (rawPowerW img / 1000 - 346.3) < 0.1 /\
  (generationKW img = rawPowerW img / 1000 /\
   generationKW img < CONFIG.MAX_GENERATION_KW /\
   Rabs (generationKW img - 346.3) < 0.1) /\
  (forall (series : nat -> list WindImage) (n : nat),
      series n = [img] ->
      prop_WPD (dayFeature series n) = Some (wpd img) /\
      prop_Daily_KWh_Per_Turbine (dayFeature series n)
        = Some (generationKW img * 24)) /\
  8312.6 < generationKW img * 24 < 8312.7 /\
  Rabs (generationKW img * 24 - 8311) < 2.
Proof.
  intros img. subst img.
  assert (Hw := wpd_3_4).
  assert (Ha := area_enclosure).
  assert (Hr := rawPowerKW_3_4).
  assert (Hg := generationKW_3_4).
  split; [ exact speed_3_4 | ].
  split.
  { split; [ rewrite Hw; lra | ].
    rewrite Hw. apply Rabs_def1; lra. }
  split.
  { split.
    - unfold area, radius, CONFIG.ROTOR_DIAMETER_M. decimals. field.
    - apply Rabs_def1; lra. }
  split; [ apply Rabs_def1; lra | ].
  split.
  { split; [ exact Hg | ].
    rewrite Hg. unfold CONFIG.MAX_GENERATION_KW.
    split; [ lra | apply Rabs_def1; lra ]. }
  split.
  { intros series n Hn.
    unfold dayFeature. rewrite Hn.
    cbn [dayMeans map option_map WPD Generation_KW processImage
         prop_WPD prop_Daily_KWh_Per_Turbine].
    rewrite !mean_single. split; reflexivity. }
  rewrite Hg. split; [ lra | apply Rabs_def1; lra ].
Qed.

Lemma daily_record_single_sample_witness :
  prop_Daily_KWh_Per_Turbine (dayFeature (fun _ => [mkWind 3 4]) 0)
  = Some (generationKW (mkWind 3 4) * 24).
Proof.
  destruct daily_record_single_sample as (_ & _ & _ & _ & _ & H & _).
  apply (H (fun _ => [mkWind 3 4]) 0%nat). reflexivity.
Defined.

(** ** Feasibility arithmetic of [renderVisuals] *)

Lemma toFixed1_0 : toFixed1 0 = 0%Z.
Proof.
  unfold toFixed1. destruct (Rlt_dec 0 0) as [H | _]; [ lra | ].
  apply Zfloor_eq. simpl. lra.
Qed.

Lemma coverageRatio_no_buildings st n c :
  (APP.buildings st <= 0)%Z -> coverageRatio st n c = 0.
Proof.
  intros H. unfold coverageRatio.
  destruct (0 <? APP.buildings st)%Z eqn:E; [ | reflexivity ].
  apply Z.ltb_lt in E. lia.
Qed.

Lemma coverageRatio_buildings st n c :
  (0 < APP.buildings st)%Z ->
  coverageRatio st n c =
  IZR (homesSupported st n c) / IZR (APP.buildings st).
Proof.
  intros H. unfold coverageRatio.
  apply Z.ltb_lt in H. rewrite H. reflexivity.
Qed.

Lemma statusLabel_below st n c :
  coverageRatio st n c < 1 ->
  statusLabel st n c =
  StatusPartial (Tenths (toFixed1 (coverageRatio st n c * 100))).
Proof.
  intros H. unfold statusLabel, pctText, pctVal.
  destruct (Rle_dec 100 (coverageRatio st n c * 100)) as [Hge | _].
  - lra.
  - reflexivity.
Qed.

Lemma statusLabel_full st n c :
  1 <= coverageRatio st n c ->
  statusLabel st n c = StatusFull /\ pctText st n c = Over100.
Proof.
  intros H. unfold statusLabel, pctText, pctVal.
  destruct (Rle_dec 100 (coverageRatio st n c * 100)) as [_ | Hlt].
  - split; reflexivity.
  - lra.
Qed.

(** C4: with at least one turbine and a positive household load, the total
    daily energy is the mean generation per turbine times the number of
    turbines, and the homes supported are the floor of that total divided
    by the load: the one integer h with h × load ≤ total < (h + 1) × load. *)
Theorem homes_supported_floor (st : APP.State) (numTurbines consumption : R) :
  1 <= numTurbines ->
  0 < consumption ->
  let total := APP.kwhPerTurbine st * numTurbines in
  let h := homesSupported st numTurbines consumption in
  totalDailyKWh st numTurbines = total /\
  IZR h <= total / consumption < IZR h + 1 /\
  IZR h * consumption <= total < (IZR h + 1) * consumption /\
  (forall k : Z,
      IZR k * consumption <= total < (IZR k + 1) * consumption -> k = h).
Proof.
  intros Hn Hc total h.
  assert (Hb : IZR h <= total / consumption < IZR h + 1)
    by (apply Zfloor_bound).
  assert (Hq : total / consumption * consumption = total)
    by (field; lra).
  split; [ reflexivity | ].
  split; [ exact Hb | ].
  split.
  - rewrite <- Hq. split.
    + apply Rmult_le_compat_r; lra.
    + apply Rmult_lt_compat_r; lra.
  - intros k [Hlo Hhi]. symmetry. apply Zfloor_eq.
    change (IZR k <= total / consumption < IZR k + 1). split.
    + apply Rmult_le_reg_r with consumption; [ exact Hc | ]. lra.
    + apply Rmult_lt_reg_r with consumption; [ exact Hc | ]. lra.
Qed.

Lemma homes_supported_floor_witness :
  homesSupported (APP.mkState 0 225 100%Z true None None None) 1 1.5
  = 150%Z.
Proof.
  symmetry.
  refine (proj2 (proj2 (proj2
    (homes_supported_floor (APP.mkState 0 225 100%Z true None None None)
       (numTurbines := 1) (consumption := 1.5) _ _))) 150%Z _);
    simpl; lra.
Defined.

Lemma cappedRatio_eq st n c :
  cappedRatio st n c = Rmin (coverageRatio st n c) 1.
Proof. unfold cappedRatio. f_equal. lra. Qed.

(** C5: the capped ratio is min(coverageRatio, 1), while the status is
    decided on the unclamped ratio.  With 150 homes supported and 100
    buildings the ratio is 1.5, the capped ratio is 1 and the status is full
    coverage (the percentage text is '>100%'); any ratio below 1 gives the
    partial-coverage status, whose percentage is the unclamped ratio times
    100 shown to one decimal. *)
Theorem capped_ratio_and_status
        (st : APP.State) (numTurbines consumption : R) :
  cappedRatio st numTurbines consumption
  = Rmin (coverageRatio st numTurbines consumption) 1 /\
  (homesSupported st numTurbines consumption = 150%Z ->
   APP.buildings st = 100%Z ->
   coverageRatio st numTurbines consumption = 1.5 /\
   cappedRatio st numTurbines consumption = 1 /\
   pctText st numTurbines consumption = Over100 /\
   statusLabel st numTurbines consumption = StatusFull) /\
  (coverageRatio st numTurbines consumption < 1 ->
   cappedRatio st numTurbines consumption
   = coverageRatio st numTurbines consumption /\
   statusLabel st numTurbines consumption
   = StatusPartial
       (Tenths (toFixed1 (coverageRatio st numTurbines consumption * 100)))).
Proof.
  split; [ apply cappedRatio_eq | ].
  split.
  - intros Hh Hb.
    assert (Hr : coverageRatio st numTurbines consumption = 1.5).
    { rewrite coverageRatio_buildings by lia.
      rewrite Hh, Hb. lra. }
    split; [ exact Hr | ].
    split.
    { rewrite cappedRatio_eq, Hr. apply Rmin_right. lra. }
    destruct (@statusLabel_full st numTurbines consumption) as [Hs Hp].
    { rewrite Hr. lra. }
    split; assumption.
  - intros Hlt. split.
    + rewrite cappedRatio_eq. apply Rmin_left. lra.
    + apply statusLabel_below. exact Hlt.
Qed.

Lemma capped_ratio_and_status_witness :
  let st := APP.mkState 0 225 100%Z true None None None in
  coverageRatio st 1 1.5 = 1.5 /\
  cappedRatio st 1 1.5 = 1 /\
  pctText st 1 1.5 = Over100 /\
  statusLabel st 1 1.5 = StatusFull.
Proof.
  intros st.
  apply (proj1 (proj2 (capped_ratio_and_status st 1 1.5))).
  - unfold homesSupported, totalDailyKWh. apply Zfloor_eq.
    simpl. lra.
  - reflexivity.
Defined.

(** ** Handlers keep the session consistent *)

Lemma renderVisuals_keeps w w' :
  renderVisuals w = Ok w' ->
  APP_STATE w' = APP_STATE w /\
  turbSlider w' = turbSlider w /\
  loadSlider w' = loadSlider w /\
  turbLabel w' = turbLabel w /\
  loadLabel w' = loadLabel w.
Proof.
  unfold renderVisuals.
  destruct (APP.hasData (APP_STATE w)); cbn [negb].
  - destruct (APP.timeSeriesData (APP_STATE w)); [ | discriminate ].
    intros [= <-]. repeat split.
  - intros [= <-]. repeat split.
Qed.

Lemma renderVisuals_total w :
  (APP.hasData (APP_STATE w) = true ->
   APP.timeSeriesData (APP_STATE w) <> None) ->
  exists w', renderVisuals w = Ok w'.
Proof.
  intros H. unfold renderVisuals.
  destruct (APP.hasData (APP_STATE w)); cbn [negb].
  - destruct (APP.timeSeriesData (APP_STATE w)) as [series | ].
    + eexists; reflexivity.
    + exfalso. apply H; reflexivity.
  - eexists; reflexivity.
Qed.

Lemma renderVisuals_consistent w w' :
  consistent w -> renderVisuals w = Ok w' -> consistent w'.
Proof.
  intros (Ht & Hl & Hd) Hr.
  destruct (renderVisuals_keeps _ Hr) as (Es & Et & El & _).
  unfold consistent. rewrite Es, Et, El. auto.
Qed.

Lemma onParamsChange_consistent w w' :
  consistent w -> onParamsChange w = Ok w' -> consistent w'.
Proof.
  intros Hc Hr. unfold onParamsChange in Hr.
  refine (renderVisuals_consistent _ Hr).
  exact Hc.
Qed.

Lemma moveTo_sliderOf lo hi step s k s' :
  0 <= step ->
  sliderOf lo hi step s ->
  moveTo s k = Some s' ->
  sliderOf lo hi step s'.
Proof.
  intros Hstep (Emin & Emax & Estep & _ & _).
  unfold moveTo, stop.
  destruct (Rle_dec (smin s + INR k * sstep s) (smax s)) as [Hle | _];
    [ | discriminate ].
  intros [= <-]. unfold sliderOf; cbn [smin smax sstep svalue].
  rewrite Emin, Emax, Estep in *.
  assert (0 <= INR k) by apply pos_INR.
  repeat split; try nra.
  exists k. reflexivity.
Qed.

Lemma onAnswer_result site w :
  (APP.hasData (APP_STATE w) = true ->
   APP.timeSeriesData (APP_STATE w) <> None) ->
  exists w', onAnswer site w = Ok w' /\
             turbSlider w' = turbSlider w /\
             loadSlider w' = loadSlider w /\
             turbLabel w' = turbLabel w /\
             loadLabel w' = loadLabel w /\
             (APP.hasData (APP_STATE w') = true ->
              APP.timeSeriesData (APP_STATE w') <> None).
Proof.
  intros Hd. unfold onAnswer.
  destruct (length (dailyData (weatherSeries site)) =? 0)%nat.
  - eexists. split; [ reflexivity | ].
    cbn [turbSlider loadSlider turbLabel loadLabel APP_STATE].
    repeat split. exact Hd.
  - unfold renderVisuals.
    cbn [turbSlider loadSlider turbLabel loadLabel APP_STATE
         APP.hasData APP.timeSeriesData negb].
    eexists. split; [ reflexivity | ].
    cbn [turbSlider loadSlider turbLabel loadLabel APP_STATE
         APP.hasData APP.timeSeriesData].
    repeat split. discriminate.
Qed.

Lemma onClick_result site w :
  exists w', onClick site w = Ok w' /\
             turbSlider w' = turbSlider w /\
             loadSlider w' = loadSlider w /\
             turbLabel w' = turbLabel w /\
             loadLabel w' = loadLabel w /\
             (APP.hasData (APP_STATE w') = true ->
              APP.timeSeriesData (APP_STATE w') <> None).
Proof.
  unfold onClick.
  destruct (@onAnswer_result site (clickStart (coords site) w))
    as (w' & Hr & Et & El & Etl & Ell & Hd).
  { cbn [clickStart APP_STATE APP.hasData]. discriminate. }
  exists w'. split; [ exact Hr | ].
  cbn [clickStart turbSlider loadSlider turbLabel loadLabel]
    in Et, El, Etl, Ell.
  repeat split; assumption.
Qed.

Lemma handle_consistent e w :
  consistent w -> exists w', handle e w = Ok w' /\ consistent w'.
Proof.
  intros Hc. destruct e as [point | site | k | k]; cbn [handle].
  - eexists. split; [ reflexivity | ].
    destruct Hc as (Ht & Hl & _).
    unfold consistent;
      cbn [clickStart turbSlider loadSlider APP_STATE APP.hasData].
    split; [ exact Ht | split; [ exact Hl | discriminate ] ].
  - destruct Hc as (Ht & Hl & Hd0).
    destruct (@onAnswer_result site w Hd0)
      as (w' & Hr & Et & El & _ & _ & Hd).
    exists w'. split; [ exact Hr | ].
    unfold consistent. rewrite Et, El. auto.
  - destruct (moveTo (turbSlider w) k) as [s | ] eqn:Em.
    + destruct Hc as (Ht & Hl & Hd).
      assert (Hc' : consistent
                (mkWorld (APP_STATE w) s (loadSlider w) (turbLabel w)
                   (loadLabel w) (statsPanel w) (chartPanel w) (layers w))).
      { unfold consistent; cbn [turbSlider loadSlider APP_STATE].
        split; [ | auto ].
        apply (moveTo_sliderOf (s := turbSlider w) k); [ lra | | ]; auto. }
      destruct (@renderVisuals_total
                  (mkWorld (APP_STATE w) s (loadSlider w)
                     (TurbLabel (getValue s))
                     (LoadLabel (getValue (loadSlider w))
                        (tierOf (getValue (loadSlider w))))
                     (statsPanel w) (chartPanel w) (layers w)))
        as [w' Hr]; [ exact Hd | ].
      exists w'. split; [ exact Hr | ].
      apply (onParamsChange_consistent Hc' Hr).
    + exists w. split; [ reflexivity | exact Hc ].
  - destruct (moveTo (loadSlider w) k) as [s | ] eqn:Em.
    + destruct Hc as (Ht & Hl & Hd).
      assert (Hc' : consistent
                (mkWorld (APP_STATE w) (turbSlider w) s (turbLabel w)
                   (loadLabel w) (statsPanel w) (chartPanel w) (layers w))).
      { unfold consistent; cbn [turbSlider loadSlider APP_STATE].
        split; [ auto | split; [ | auto ] ].
        apply (moveTo_sliderOf (s := loadSlider w) k); [ lra | | ]; auto. }
      destruct (@renderVisuals_total
                  (mkWorld (APP_STATE w) (turbSlider w) s
                     (TurbLabel (getValue (turbSlider w)))
                     (LoadLabel (getValue s) (tierOf (getValue s)))
                     (statsPanel w) (chartPanel w) (layers w)))
        as [w' Hr]; [ exact Hd | ].
      exists w'. split; [ exact Hr | ].
      apply (onParamsChange_consistent Hc' Hr).
    + exists w. split; [ reflexivity | exact Hc ].
Qed.

Lemma run_consistent es :
  forall w, consistent w -> exists w', run es w = Ok w' /\ consistent w'.
Proof.
  induction es as [ | e rest IH ]; intros w Hc; cbn [run].
  - exists w. split; [ reflexivity | exact Hc ].
  - destruct (handle_consistent e Hc) as (w1 & Hh & Hc1).
    rewrite Hh. cbn [bind]. apply IH. exact Hc1.
Qed.

Lemma world0_consistent : consistent world0.
Proof.
  unfold consistent, world0, sliderOf;
    cbn [turbSlider loadSlider smin smax sstep svalue APP_STATE
         APP.empty APP.hasData].
  repeat split; try lra; try discriminate.
  - exists 0%nat. simpl. lra.
  - exists 2%nat. simpl. lra.
Qed.

Lemma reachable_consistent w : reachable w -> consistent w.
Proof.
  intros [es Hr].
  destruct (run_consistent es world0_consistent) as (w' & Hr' & Hc).
  congruence.
Qed.

(** ** The click handler, case by case *)

Lemma onAnswer_no_data site w :
  dailyData (weatherSeries site) = [] ->
  onAnswer site w =
  Ok (mkWorld (APP_STATE w) (turbSlider w) (loadSlider w)
              (turbLabel w) (loadLabel w)
              [NoWindData] (chartPanel w) (layers w)).
Proof.
  intros E. unfold onAnswer. rewrite E. reflexivity.
Qed.

Lemma onAnswer_with_data site w :
  let series := dailyData (weatherSeries site) in
  let st :=
    APP.mkState (aggregate_mean prop_WPD series)
                (aggregate_mean prop_Daily_KWh_Per_Turbine series)
                (buildingsOf (bCount site)) true (Some series)
                (Some (buildingOnlyLayer (coords site)))
                (APP.centerPoint (APP_STATE w)) in
  let n := getValue (turbSlider w) in
  let c := getValue (loadSlider w) in
  series <> [] ->
  onAnswer site w =
  Ok (mkWorld st (turbSlider w) (loadSlider w) (turbLabel w) (loadLabel w)
              (renderedStats st n c)
              (renderedCharts n c series)
              (renderedLayers st n c)).
Proof.
  intros series st n c Hne. unfold onAnswer. fold series.
  destruct series as [ | f rest ] eqn:E; [ congruence | ].
  reflexivity.
Qed.

Lemma onClick_no_data site w :
  dailyData (weatherSeries site) = [] ->
  onClick site w =
  Ok (mkWorld (APP.mkState 0 0 0%Z false None None (Some (coords site)))
              (turbSlider w) (loadSlider w) (turbLabel w) (loadLabel w)
              [NoWindData] [] [TurbineLocation (Some (coords site))]).
Proof.
  intros E. unfold onClick.
  rewrite (onAnswer_no_data _ _ E). reflexivity.
Qed.

Lemma onClick_with_data site w :
  let series := dailyData (weatherSeries site) in
  let st :=
    APP.mkState (aggregate_mean prop_WPD series)
                (aggregate_mean prop_Daily_KWh_Per_Turbine series)
                (buildingsOf (bCount site)) true (Some series)
                (Some (buildingOnlyLayer (coords site)))
                (Some (coords site)) in
  let n := getValue (turbSlider w) in
  let c := getValue (loadSlider w) in
  series <> [] ->
  onClick site w =
  Ok (mkWorld st (turbSlider w) (loadSlider w) (turbLabel w) (loadLabel w)
              (renderedStats st n c)
              (renderedCharts n c series)
              (renderedLayers st n c)).
Proof.
  intros series st n c Hne. unfold onClick.
  pose proof (@onAnswer_with_data site (clickStart (coords site) w) Hne)
    as H. cbv zeta in H. rewrite H. reflexivity.
Qed.

(** ** Every record of the series carries both properties *)

Lemma dayFeature_notNull ws n :
  notNull_WPD (dayFeature ws n) = true ->
  prop_WPD (dayFeature ws n) <> None /\
  prop_Daily_KWh_Per_Turbine (dayFeature ws n) <> None.
Proof.
  unfold notNull_WPD, dayFeature; cbn [prop_WPD prop_Daily_KWh_Per_Turbine].
  destruct (dayMeans (ws n)); cbn [option_map]; intros H.
  - split; discriminate.
  - discriminate.
Qed.

Lemma dailyData_complete ws f :
  In f (dailyData ws) ->
  prop_WPD f <> None /\ prop_Daily_KWh_Per_Turbine f <> None.
Proof.
  unfold dailyData. intros H.
  apply filter_In in H. destruct H as [Hin Hnn].
  apply in_map_iff in Hin. destruct Hin as (n & <- & _).
  apply dayFeature_notNull. exact Hnn.
Qed.

Lemma propValues_length prop fs :
  (forall f, In f fs -> prop f <> None) ->
  length (propValues prop fs) = length fs.
Proof.
  induction fs as [ | f rest IH ]; intros H; cbn [propValues length].
  - reflexivity.
  - destruct (prop f) eqn:E.
    + cbn [length]. f_equal. apply IH.
      intros g Hg. apply H. right. exact Hg.
    + exfalso. apply (H f); [ left; reflexivity | exact E ].
Qed.

Lemma aggregate_mean_all ws prop :
  (forall f, In f (dailyData ws) -> prop f <> None) ->
  aggregate_mean prop (dailyData ws)
  = Rsum (propValues prop (dailyData ws)) / INR (length (dailyData ws)).
Proof.
  intros H. unfold aggregate_mean, mean.
  rewrite propValues_length by exact H. reflexivity.
Qed.

(** C7: the annual summary needs at least one daily record.  With no record
    the click handler shows the error 'No wind data available', leaves the
    state without data and computes no mean (the recorded figures stay at
    their reset value 0 and nothing is charted); with at least one record
    it records, for each of the two fields, the sum over all records
    divided by the number of records. *)
Theorem annual_summary_needs_records (site : Site) (w : World) :
  let series := dailyData (weatherSeries site) in
  (series = [] ->
   exists w', onClick site w = Ok w' /\
              statsPanel w' = [NoWindData] /\
              chartPanel w' = [] /\
              APP.hasData (APP_STATE w') = false /\
              APP.timeSeriesData (APP_STATE w') = None /\
              APP.wpd (APP_STATE w') = 0 /\
              APP.kwhPerTurbine (APP_STATE w') = 0) /\
  (series <> [] ->
   exists w', onClick site w = Ok w' /\
              APP.hasData (APP_STATE w') = true /\
              ~ In NoWindData (statsPanel w') /\
              length (propValues prop_WPD series) = length series /\
              length (propValues prop_Daily_KWh_Per_Turbine series)
              = length series /\
              APP.wpd (APP_STATE w')
              = Rsum (propValues prop_WPD series) / INR (length series) /\
              APP.kwhPerTurbine (APP_STATE w')
              = Rsum (propValues prop_Daily_KWh_Per_Turbine series)
                / INR (length series)).
Proof.
  intros series. split; intros H.
  - eexists. split; [ apply onClick_no_data; exact H | ].
    cbn [statsPanel chartPanel APP_STATE APP.hasData APP.timeSeriesData
         APP.wpd APP.kwhPerTurbine].
    repeat split.
  - eexists. split; [ apply onClick_with_data; exact H | ].
    cbn [statsPanel chartPanel APP_STATE APP.hasData APP.timeSeriesData
         APP.wpd APP.kwhPerTurbine].
    assert (Hw : forall f, In f series -> prop_WPD f <> None)
      by (intros f Hf; apply (dailyData_complete _ _ Hf)).
    assert (Hd : forall f, In f series ->
                           prop_Daily_KWh_Per_Turbine f <> None)
      by (intros f Hf; apply (dailyData_complete _ _ Hf)).
    split; [ reflexivity | ].
    split.
    { unfold renderedStats, statusLabel. cbn [In].
      intros [C | [C | [C | [C | [C | [C | []]]]]]]; try discriminate.
      destruct (Rle_dec 100 _) in C; discriminate. }
    split; [ apply propValues_length; exact Hw | ].
    split; [ apply propValues_length; exact Hd | ].
    split; apply aggregate_mean_all; assumption.
Qed.

Lemma annual_summary_needs_records_witness :
  exists w',
    onClick (mkSite (0, 0) (fun _ => []) None) world0 = Ok w' /\
    statsPanel w' = [NoWindData].
Proof.
  destruct (proj1 (annual_summary_needs_records
                     (mkSite (0, 0) (fun _ => []) None) world0))
    as (w' & Hr & Hs & _).
  - reflexivity.
  - exists w'. split; assumption.
Defined.

(** ** Coverage on an empty inventory *)

Lemma statusLabel_no_buildings st n c :
  (APP.buildings st <= 0)%Z ->
  statusLabel st n c = StatusPartial (Tenths 0).
Proof.
  intros H.
  assert (E : coverageRatio st n c = 0)
    by (apply coverageRatio_no_buildings; exact H).
  rewrite statusLabel_below by lra.
  rewrite E. replace (0 * 100) with 0 by ring.
  rewrite toFixed1_0. reflexivity.
Qed.

Lemma Js_div_finite x y :
  y <> 0 -> Js.div (Js.Num x) (Js.Num y) = Js.Num (x / y).
Proof.
  intros Hy. unfold Js.div.
  destruct (Req_dec_T y 0) as [E | _]; [ contradiction | reflexivity ].
Qed.

Lemma Js_div_by_zero x :
  0 < x -> Js.div (Js.Num x) (Js.Num 0) = Js.PosInf.
Proof.
  intros Hx. unfold Js.div.
  destruct (Req_dec_T 0 0) as [_ | N]; [ | contradiction N; reflexivity ].
  destruct (Req_dec_T x 0) as [E | _]; [ lra | ].
  destruct (Rlt_dec 0 x) as [_ | N]; [ reflexivity | contradiction ].
Qed.

Lemma InJs_homesSupported_finite st n c :
  c <> 0 ->
  InJs.homesSupported st n c = Js.Num (IZR (homesSupported st n c)).
Proof.
  intros Hc. unfold InJs.homesSupported, InJs.totalDailyKWh.
  cbn [Js.mul]. rewrite Js_div_finite by exact Hc. reflexivity.
Qed.

Lemma InJs_coverageRatio_finite st n c :
  c <> 0 -> InJs.coverageRatio st n c = Js.Num (coverageRatio st n c).
Proof.
  intros Hc. unfold InJs.coverageRatio, coverageRatio.
  rewrite InJs_homesSupported_finite by exact Hc.
  destruct (0 <? APP.buildings st)%Z eqn:E; [ | reflexivity ].
  apply Z.ltb_lt in E.
  apply Js_div_finite. apply not_0_IZR. lia.
Qed.

Lemma InJs_fullCoverage_finite st n c :
  c <> 0 ->
  (InJs.fullCoverage st n c = true <-> statusLabel st n c = StatusFull).
Proof.
  intros Hc. unfold InJs.fullCoverage, InJs.pctVal.
  rewrite InJs_coverageRatio_finite by exact Hc.
  cbn [Js.mul Js.ge]. unfold statusLabel, pctVal.
  destruct (Rle_dec 100 (coverageRatio st n c * 100)); split;
    intros H; try reflexivity; discriminate.
Qed.

Lemma InJs_no_buildings st n c :
  (APP.buildings st <= 0)%Z ->
  InJs.coverageRatio st n c = Js.Num 0 /\
  InJs.cappedRatio st n c = Js.Num 0 /\
  InJs.fullCoverage st n c = false.
Proof.
  intros Hb.
  assert (E : InJs.coverageRatio st n c = Js.Num 0).
  { unfold InJs.coverageRatio.
    destruct (0 <? APP.buildings st)%Z eqn:E; [ | reflexivity ].
    apply Z.ltb_lt in E. lia. }
  split; [ exact E | ].
  unfold InJs.cappedRatio, InJs.fullCoverage, InJs.pctVal.
  rewrite E. cbn [Js.min Js.mul Js.ge]. split.
  - f_equal. apply Rmin_left. lra.
  - destruct (Rle_dec 100 (0 * 100)) as [H | _]; [ lra | reflexivity ].
Qed.

(** C3: the coverage ratio never divides by zero.  On JavaScript numbers,
    where a division by zero would give an infinity or NaN: with no
    building the ratio is the number 0, the capped ratio is 0 and the
    status test fails, whatever the homes supported are, a zero household
    load included; with a positive count the ratio is the homes supported
    divided by the count, a non-zero divisor.  With a non-zero load all
    these numbers are finite and are the real-valued ones used by
    [renderVisuals] above.  A completed click on a site without buildings
    records 0 buildings and shows the 0.0% partial status; and in no
    sequence of clicks, answers and slider moves does a handler throw or
    the load become zero. *)
Theorem coverage_ratio_guarded :
  (forall (st : APP.State) (numTurbines consumption : R),
      ((APP.buildings st <= 0)%Z ->
       InJs.coverageRatio st numTurbines consumption = Js.Num 0 /\
       InJs.cappedRatio st numTurbines consumption = Js.Num 0 /\
       InJs.fullCoverage st numTurbines consumption = false) /\
      ((0 < APP.buildings st)%Z ->
       IZR (APP.buildings st) <> 0 /\
       InJs.coverageRatio st numTurbines consumption
       = Js.div (InJs.homesSupported st numTurbines consumption)
                (Js.Num (IZR (APP.buildings st))))) /\
  (forall (st : APP.State) (numTurbines consumption : R),
      consumption <> 0 ->
      InJs.homesSupported st numTurbines consumption
      = Js.Num (IZR (homesSupported st numTurbines consumption)) /\
      InJs.coverageRatio st numTurbines consumption
      = Js.Num (coverageRatio st numTurbines consumption) /\
      InJs.cappedRatio st numTurbines consumption
      = Js.Num (cappedRatio st numTurbines consumption) /\
      (InJs.fullCoverage st numTurbines consumption = true <->
       statusLabel st numTurbines consumption = StatusFull)) /\
  (forall (site : Site) (w : World),
      getValue (loadSlider w) <> 0 ->
      buildingsOf (bCount site) = 0%Z ->
      dailyData (weatherSeries site) <> [] ->
      exists w',
        onClick site w = Ok w' /\
        APP.buildings (APP_STATE w') = 0%Z /\
        In (PotentialCoverage
              (homesSupported (APP_STATE w') (getValue (turbSlider w))
                              (getValue (loadSlider w))) 0)
           (statsPanel w') /\
        In (StatusPartial (Tenths 0)) (statsPanel w')) /\
  (forall es : list Event,
      exists w w',
        run es world0 = Ok w /\
        getValue (loadSlider w) <> 0 /\
        renderVisuals w = Ok w').
Proof.
  split; [ | split; [ | split ] ].
  - intros st n c. split.
    + apply InJs_no_buildings.
    + intros H. split.
      * apply not_0_IZR. lia.
      * unfold InJs.coverageRatio.
        apply Z.ltb_lt in H. rewrite H. reflexivity.
  - intros st n c Hc.
    split; [ apply InJs_homesSupported_finite; exact Hc | ].
    split; [ apply InJs_coverageRatio_finite; exact Hc | ].
    split; [ | apply InJs_fullCoverage_finite; exact Hc ].
    unfold InJs.cappedRatio.
    rewrite InJs_coverageRatio_finite by exact Hc. reflexivity.
  - intros site w _ Hb Hne.
    eexists. split; [ apply onClick_with_data; exact Hne | ].
    cbn [APP_STATE statsPanel APP.buildings].
    split; [ exact Hb | ].
    unfold renderedStats. cbn [APP.buildings]. rewrite Hb.
    split.
    + cbn [In]. do 4 right. left. reflexivity.
    + rewrite statusLabel_no_buildings
        by (cbn [APP.buildings]; lia).
      cbn [In]. do 5 right. left. reflexivity.
  - intros es.
    destruct (run_consistent es world0_consistent) as (w & Hr & Hc).
    destruct (@renderVisuals_total w) as [w' Hw'].
    { destruct Hc as (_ & _ & Hd). exact Hd. }
    exists w, w'. split; [ exact Hr | ].
    split; [ | exact Hw' ].
    destruct Hc as (_ & (_ & _ & _ & Hl & _) & _).
    unfold getValue. lra.
Qed.

Lemma coverage_ratio_guarded_witness :
  let st := APP.mkState 0 75 0%Z true None None None in
  InJs.homesSupported st 1 1.5 = Js.Num 50 /\
  InJs.coverageRatio st 1 1.5 = Js.Num 0 /\
  Js.div (InJs.homesSupported st 1 1.5) (Js.Num 0) = Js.PosInf.
Proof.
  intros st.
  assert (Hh : InJs.homesSupported st 1 1.5 = Js.Num 50).
  { destruct (proj1 (proj2 coverage_ratio_guarded) st 1 1.5) as [Hh _];
      [ lra | ].
    rewrite Hh. do 2 f_equal.
    unfold homesSupported, totalDailyKWh. apply Zfloor_eq. simpl. lra. }
  split; [ exact Hh | ].
  split.
  - apply (proj1 (proj1 coverage_ratio_guarded st 1 1.5)).
    simpl. lia.
  - rewrite Hh. apply Js_div_by_zero. lra.
Defined.

(** ** Scenario parameters *)



(** ** Re-evaluation *)

Lemma renderVisuals_idempotent w w' :
  renderVisuals w = Ok w' -> renderVisuals w' = Ok w'.
Proof.
  unfold renderVisuals at 1.
  destruct (APP.hasData (APP_STATE w)) eqn:Eh; cbn [negb].
  - destruct (APP.timeSeriesData (APP_STATE w)) as [series | ] eqn:Es;
      [ | discriminate ].
    intros [= <-]. unfold renderVisuals.
    cbn [APP_STATE turbSlider loadSlider turbLabel loadLabel].
    rewrite Eh, Es. reflexivity.
  - intros [= <-]. unfold renderVisuals. rewrite Eh. reflexivity.
Qed.

Lemma renderVisuals_outputs w1 w2 w1' w2' :
  APP_STATE w1 = APP_STATE w2 ->
  turbSlider w1 = turbSlider w2 ->
  loadSlider w1 = loadSlider w2 ->
  APP.hasData (APP_STATE w1) = true ->
  renderVisuals w1 = Ok w1' ->
  renderVisuals w2 = Ok w2' ->
  outputs w1' = outputs w2'.
Proof.
  intros Es Et El Eh. unfold renderVisuals.
  rewrite <- Es, <- Et, <- El, Eh. cbn [negb].
  destruct (APP.timeSeriesData (APP_STATE w1)); [ | discriminate ].
  intros [= <-] [= <-]. reflexivity.
Qed.

Lemma onClick_outputs site w1 w2 :
  turbSlider w1 = turbSlider w2 ->
  loadSlider w1 = loadSlider w2 ->
  exists w1' w2',
    onClick site w1 = Ok w1' /\
    onClick site w2 = Ok w2' /\
    outputs w1' = outputs w2'.
Proof.
  intros Et El.
  destruct (dailyData (weatherSeries site)) as [ | f rest ] eqn:E.
  - do 2 eexists.
    split; [ apply onClick_no_data; exact E | ].
    split; [ apply onClick_no_data; exact E | ].
    reflexivity.
  - assert (Hne : dailyData (weatherSeries site) <> [])
      by (rewrite E; discriminate).
    do 2 eexists.
    split; [ apply onClick_with_data; exact Hne | ].
    split; [ apply onClick_with_data; exact Hne | ].
    unfold outputs. cbn [APP_STATE statsPanel chartPanel layers].
    rewrite Et, El. reflexivity.
Qed.

Lemma onClick_idempotent site w w' :
  onClick site w = Ok w' -> onClick site w' = Ok w'.
Proof.
  destruct (dailyData (weatherSeries site)) as [ | f rest ] eqn:E.
  - rewrite (onClick_no_data _ w E). intros [= <-].
    rewrite (onClick_no_data _ _ E). reflexivity.
  - assert (Hne : dailyData (weatherSeries site) <> [])
      by (rewrite E; discriminate).
    pose proof (@onClick_with_data site w Hne) as H1. cbv zeta in H1.
    rewrite H1. intros [= <-].
    match goal with
    | |- onClick site ?x = _ =>
        pose proof (@onClick_with_data site x Hne) as H2
    end.
    cbv zeta in H2.
    cbn [turbSlider loadSlider turbLabel loadLabel] in H2.
    exact H2.
Qed.

(** * Further properties of the script *)

(** ** The power curve as a function of the speed *)

Lemma rawPowerKW_speed img :
  rawPowerW img / 1000 = 0.882 * PI * speed img ^ 3.
Proof.
  unfold rawPowerW, wpd, area, radius.
  unfold CONFIG.AIR_DENSITY, CONFIG.ROTOR_DIAMETER_M, CONFIG.SYSTEM_EFFICIENCY.
  decimals. field.
Qed.

Lemma generationKW_operating img :
  3 <= speed img <= 25 ->
  generationKW img = Rmin (rawPowerW img / 1000) CONFIG.MAX_GENERATION_KW.
Proof.
  intros H. unfold generationKW.
  assert (E : outsideCurve img = false) by (apply outsideCurve_false; exact H).
  rewrite E. reflexivity.
Qed.

Lemma generationKW_stopped img :
  speed img < 3 \/ speed img > 25 -> generationKW img = 0.
Proof.
  intros H. unfold generationKW.
  assert (E : outsideCurve img = true) by (apply outsideCurve_true; exact H).
  rewrite E. reflexivity.
Qed.

Lemma cube_le (a b : R) : 0 <= a <= b -> a ^ 3 <= b ^ 3.
Proof. intros H. apply pow_incr. exact H. Qed.

(** X1: between the cut-in speed and 10 m/s the nameplate cap is not
    reached and the generation is the raw electrical power; from 11 m/s up
    to the cut-out speed the turbine delivers exactly its 3000 kW
    nameplate. *)
Theorem rated_power_region (img : WindImage) :
  (3 <= speed img <= 10 ->
   generationKW img = rawPowerW img / 1000 /\
   generationKW img < CONFIG.MAX_GENERATION_KW) /\
  (11 <= speed img <= 25 ->
   generationKW img = CONFIG.MAX_GENERATION_KW).
Proof.
  assert (Hpi := PI_enclosure).
  assert (Hk := rawPowerKW_speed img).
  split; intros H.
  - assert (Hc : speed img ^ 3 <= 10 ^ 3) by (apply cube_le; lra).
    assert (Hlt : rawPowerW img / 1000 < CONFIG.MAX_GENERATION_KW).
    { rewrite Hk. unfold CONFIG.MAX_GENERATION_KW.
      simpl pow in Hc. nra. }
    rewrite generationKW_operating by lra.
    rewrite Rmin_left by lra. split; [ reflexivity | exact Hlt ].
  - assert (Hc : 11 ^ 3 <= speed img ^ 3) by (apply cube_le; lra).
    rewrite generationKW_operating by lra.
    apply Rmin_right.
    rewrite Hk. unfold CONFIG.MAX_GENERATION_KW.
    simpl pow in Hc. nra.
Qed.

Lemma sqrt_0_12 : sqrt (0 * 0 + 12 * 12) = 12.
Proof.
  replace (0 * 0 + 12 * 12) with (12 * 12) by ring.
  apply sqrt_square. lra.
Qed.

Lemma rated_power_region_witness :
  generationKW (mkWind 3 4) < CONFIG.MAX_GENERATION_KW /\
  generationKW (mkWind 0 12) = CONFIG.MAX_GENERATION_KW.
Proof.
  split.
  - apply (proj1 (rated_power_region (mkWind 3 4))).
    change (speed (mkWind 3 4)) with (sqrt (3 * 3 + 4 * 4)).
    rewrite sqrt_3_4. lra.
  - apply (proj2 (rated_power_region (mkWind 0 12))).
    change (speed (mkWind 0 12)) with (sqrt (0 * 0 + 12 * 12)).
    rewrite sqrt_0_12. lra.
Defined.

(** X2: a sample generates nothing exactly when its speed is below the
    cut-in speed or above the cut-out speed; inside the operating range the
    generation is always strictly positive. *)
Theorem no_generation_iff_stopped (img : WindImage) :
  generationKW img = 0 <-> speed img < 3 \/ speed img > 25.
Proof.
  split.
  - intros H0.
    destruct (Rlt_dec (speed img) 3) as [Hlo | Hlo]; [ left; exact Hlo | ].
    destruct (Rlt_dec 25 (speed img)) as [Hhi | Hhi]; [ right; exact Hhi | ].
    exfalso.
    assert (Hin : 3 <= speed img <= 25) by lra.
    rewrite (generationKW_operating _ Hin) in H0.
    assert (Hp : 0 < rawPowerW img) by (apply rawPowerW_pos; lra).
    assert (0 < Rmin (rawPowerW img / 1000) CONFIG.MAX_GENERATION_KW).
    { apply Rmin_glb_lt; unfold CONFIG.MAX_GENERATION_KW; lra. }
    lra.
  - apply generationKW_stopped.
Qed.

(** X3: up to the cut-out speed the generation never decreases when the
    wind gets stronger. *)
Theorem generation_monotone_below_cut_out (a b : WindImage) :
  speed a <= speed b ->
  speed b <= 25 ->
  generationKW a <= generationKW b.
Proof.
  intros Hab Hb.
  destruct (Rlt_dec (speed a) 3) as [Ha | Ha].
  - rewrite (generationKW_stopped a) by (left; exact Ha).
    apply generationKW_bounds.
  - assert (Hina : 3 <= speed a <= 25) by lra.
    assert (Hinb : 3 <= speed b <= 25) by lra.
    rewrite (generationKW_operating _ Hina), (generationKW_operating _ Hinb).
    apply Rle_min_compat_r.
    rewrite !rawPowerKW_speed.
    assert (Hc : speed a ^ 3 <= speed b ^ 3) by (apply cube_le; lra).
    assert (Hpi := PI_RGT_0). nra.
Qed.

Lemma generation_monotone_below_cut_out_witness :
  generationKW (mkWind 3 4) <= generationKW (mkWind 0 12).
Proof.
  apply generation_monotone_below_cut_out;
    change (speed (mkWind 3 4)) with (sqrt (3 * 3 + 4 * 4));
    change (speed (mkWind 0 12)) with (sqrt (0 * 0 + 12 * 12));
    rewrite ?sqrt_3_4, ?sqrt_0_12; lra.
Defined.

(** X4: only the speed matters, not the direction: two samples of equal
    speed give the same bands; and scaling both components by k >= 0
    scales the speed by k and the wind power density by k³. *)
Theorem wind_direction_irrelevant :
  (forall a b : WindImage, speed a = speed b ->
                           processImage a = processImage b) /\
  (forall u v k : R,
      0 <= k ->
      speed (mkWind (k * u) (k * v)) = k * speed (mkWind u v) /\
      wpd (mkWind (k * u) (k * v)) = k ^ 3 * wpd (mkWind u v)).
Proof.
  split.
  - intros a b E.
    unfold processImage, generationKW, outsideCurve, rawPowerW, wpd.
    rewrite E. reflexivity.
  - intros u v k Hk.
    assert (Es : speed (mkWind (k * u) (k * v)) = k * speed (mkWind u v)).
    { unfold speed, Px.hypot; cbn [wind_u wind_v].
      replace (k * u * (k * u) + k * v * (k * v))
        with (k * k * (u * u + v * v)) by ring.
      rewrite sqrt_mult_alt by nra.
      rewrite sqrt_square by exact Hk. reflexivity. }
    split; [ exact Es | ].
    unfold wpd. rewrite Es. ring.
Qed.

Lemma wind_direction_irrelevant_witness :
  processImage (mkWind 3 4) = processImage (mkWind 4 3) /\
  speed (mkWind (2 * 3) (2 * 4)) = 2 * speed (mkWind 3 4).
Proof.
  split.
  - apply (proj1 wind_direction_irrelevant).
    unfold speed, Px.hypot; cbn [wind_u wind_v]. f_equal. ring.
  - apply (proj2 wind_direction_irrelevant 3 4 2). lra.
Defined.

(** ** Coverage figures *)

Lemma homesSupported_nonneg st n c :
  0 <= APP.kwhPerTurbine st -> 0 <= n -> 0 < c ->
  (0 <= homesSupported st n c)%Z.
Proof.
  intros Hk Hn Hc. unfold homesSupported, totalDailyKWh.
  apply Zfloor_lub. simpl IZR.
  apply Rmult_le_reg_r with c; [ exact Hc | ].
  unfold Rdiv. rewrite Rmult_assoc, Rinv_l by lra. nra.
Qed.

Lemma coverageRatio_nonneg st n c :
  (0 <= homesSupported st n c)%Z -> 0 <= coverageRatio st n c.
Proof.
  intros Hh. unfold coverageRatio.
  destruct (0 <? APP.buildings st)%Z eqn:E; [ | lra ].
  apply Z.ltb_lt in E.
  apply IZR_le in Hh. apply IZR_lt in E.
  apply Rmult_le_reg_r with (IZR (APP.buildings st)); [ exact E | ].
  unfold Rdiv. rewrite Rmult_assoc, Rinv_l by lra. lra.
Qed.

Lemma cappedRatio_unit st n c :
  (0 <= homesSupported st n c)%Z -> 0 <= cappedRatio st n c <= 1.
Proof.
  intros Hh. rewrite cappedRatio_eq.
  assert (Hr := coverageRatio_nonneg _ _ _ Hh).
  split; [ apply Rmin_glb; lra | apply Rmin_r ].
Qed.

Lemma ratio_ge_1_iff st n c :
  1 <= coverageRatio st n c <->
  (0 < APP.buildings st /\ APP.buildings st <= homesSupported st n c)%Z.
Proof.
  unfold coverageRatio.
  destruct (0 <? APP.buildings st)%Z eqn:E.
  - apply Z.ltb_lt in E.
    assert (Hb : 0 < IZR (APP.buildings st)) by (apply IZR_lt in E; exact E).
    split.
    + intros H. split; [ exact E | ].
      apply le_IZR.
      apply Rmult_le_compat_r with (r := IZR (APP.buildings st)) in H;
        [ | lra ].
      unfold Rdiv in H. rewrite Rmult_assoc, Rinv_l in H by lra. lra.
    + intros [_ H]. apply IZR_le in H.
      apply Rmult_le_reg_r with (IZR (APP.buildings st)); [ exact Hb | ].
      unfold Rdiv. rewrite Rmult_assoc, Rinv_l by lra. lra.
  - apply Z.ltb_ge in E. split; [ lra | lia ].
Qed.

(** X5: the status is FULL COVERAGE exactly when there is at least one
    building and the homes supported reach the building count; that is
    also exactly when the capped ratio is 1.  A site without buildings is
    never reported as fully covered. *)
Theorem full_coverage_iff (st : APP.State) (numTurbines consumption : R) :
  (statusLabel st numTurbines consumption = StatusFull <->
   (0 < APP.buildings st /\
    APP.buildings st <= homesSupported st numTurbines consumption)%Z) /\
  (statusLabel st numTurbines consumption = StatusFull <->
   cappedRatio st numTurbines consumption = 1).
Proof.
  assert (Hs : statusLabel st numTurbines consumption = StatusFull <->
               1 <= coverageRatio st numTurbines consumption).
  { split.
    - intros H.
      destruct (Rle_dec 1 (coverageRatio st numTurbines consumption))
        as [Hge | Hlt]; [ exact Hge | ].
      rewrite statusLabel_below in H by lra. discriminate.
    - intros H. apply statusLabel_full. exact H. }
  split.
  - rewrite Hs. apply ratio_ge_1_iff.
  - rewrite Hs, cappedRatio_eq. split.
    + intros H. apply Rmin_right. exact H.
    + intros H.
      assert (Hm := Rmin_l (coverageRatio st numTurbines consumption) 1).
      lra.
Qed.

Lemma homesSupported_mono_turbines st n1 n2 c :
  0 <= APP.kwhPerTurbine st -> 0 < c -> n1 <= n2 ->
  (homesSupported st n1 c <= homesSupported st n2 c)%Z.
Proof.
  intros Hk Hc Hn. unfold homesSupported, totalDailyKWh.
  apply Zfloor_le.
  apply Rmult_le_compat_r; [ left; apply Rinv_0_lt_compat; exact Hc | ].
  nra.
Qed.

Lemma coverageRatio_mono st n1 c1 n2 c2 :
  (homesSupported st n1 c1 <= homesSupported st n2 c2)%Z ->
  coverageRatio st n1 c1 <= coverageRatio st n2 c2.
Proof.
  intros Hh. unfold coverageRatio.
  destruct (0 <? APP.buildings st)%Z eqn:E; [ | lra ].
  apply Z.ltb_lt in E. apply IZR_lt in E. apply IZR_le in Hh.
  apply Rmult_le_compat_r; [ left; apply Rinv_0_lt_compat; exact E | ].
  exact Hh.
Qed.

(** X6: with a non-negative mean generation and a positive household
    load, adding turbines never lowers the homes supported, the coverage
    ratio or the capped ratio; and with a non-negative number of turbines
    a heavier household load never raises the homes supported. *)
Theorem coverage_monotone (st : APP.State) (n1 n2 c1 c2 : R) :
  0 <= APP.kwhPerTurbine st ->
  0 <= n1 <= n2 ->
  0 < c1 <= c2 ->
  ((homesSupported st n1 c1 <= homesSupported st n2 c1)%Z /\
   coverageRatio st n1 c1 <= coverageRatio st n2 c1 /\
   cappedRatio st n1 c1 <= cappedRatio st n2 c1) /\
  (homesSupported st n1 c2 <= homesSupported st n1 c1)%Z.
Proof.
  intros Hk [Hn0 Hn] [Hc0 Hc].
  assert (Hh : (homesSupported st n1 c1 <= homesSupported st n2 c1)%Z)
    by (apply homesSupported_mono_turbines; assumption).
  split.
  - split; [ exact Hh | ].
    assert (Hr := coverageRatio_mono st n1 c1 n2 c1 Hh).
    split; [ exact Hr | ].
    rewrite !cappedRatio_eq. apply Rle_min_compat_r. exact Hr.
  - unfold homesSupported, totalDailyKWh. apply Zfloor_le.
    assert (Ht : 0 <= APP.kwhPerTurbine st * n1) by nra.
    unfold Rdiv. apply Rmult_le_compat_l; [ exact Ht | ].
    apply Rinv_le_contravar; lra.
Qed.

Lemma coverage_monotone_witness :
  let st := APP.mkState 0 225 100%Z true None None None in
  (homesSupported st 1 1.5 <= homesSupported st 2 1.5)%Z /\
  (homesSupported st 1 3 <= homesSupported st 1 1.5)%Z.
Proof.
  intros st.
  destruct (@coverage_monotone st 1 2 1.5 3) as [(H1 & _) H2];
    try (simpl; lra).
  split; assumption.
Defined.

Lemma toFixed1_nonneg x :
  0 <= x -> toFixed1 x = Zfloor (x * 10 + 0.5).
Proof.
  intros H. unfold toFixed1.
  destruct (Rlt_dec x 0) as [Hn | _]; [ lra | reflexivity ].
Qed.

(** X7: for a coverage ratio from 0 up to, but excluding, 1 the status is
    PARTIAL COVERAGE and the percentage shown has between 0 and 1000
    tenths; it reads 100.0% exactly when the ratio is at least 0.9995. *)
Theorem partial_percentage_range
        (st : APP.State) (numTurbines consumption : R) :
  0 <= coverageRatio st numTurbines consumption < 1 ->
  exists tenths : Z,
    statusLabel st numTurbines consumption = StatusPartial (Tenths tenths) /\
    (0 <= tenths <= 1000)%Z /\
    (tenths = 1000%Z <->
     0.9995 <= coverageRatio st numTurbines consumption).
Proof.
  intros [Hlo Hhi].
  set (r := coverageRatio st numTurbines consumption) in *.
  exists (toFixed1 (r * 100)).
  split; [ apply statusLabel_below; exact Hhi | ].
  rewrite toFixed1_nonneg by lra.
  assert (Hb := Zfloor_bound (r * 100 * 10 + 0.5)).
  assert (H0 : (0 <= Zfloor (r * 100 * 10 + 0.5))%Z)
    by (apply Zfloor_lub; simpl IZR; lra).
  assert (H1 : (Zfloor (r * 100 * 10 + 0.5) < 1001)%Z)
    by (apply lt_IZR; lra).
  split; [ lia | ].
  split.
  - intros E. rewrite E in Hb. lra.
  - intros H.
    assert ((1000 <= Zfloor (r * 100 * 10 + 0.5))%Z)
      by (apply Zfloor_lub; lra).
    lia.
Qed.

Lemma partial_percentage_range_witness :
  exists tenths : Z,
    statusLabel (APP.mkState 0 2499 2500%Z true None None None) 1 1
    = StatusPartial (Tenths tenths) /\
    (0 <= tenths <= 1000)%Z /\
    (tenths = 1000%Z <->
     0.9995 <= coverageRatio
                 (APP.mkState 0 2499 2500%Z true None None None) 1 1).
Proof.
  apply partial_percentage_range.
  assert (E : homesSupported
                (APP.mkState 0 2499 2500%Z true None None None) 1 1
              = 2499%Z).
  { unfold homesSupported, totalDailyKWh. apply Zfloor_eq. simpl. lra. }
  rewrite coverageRatio_buildings by (simpl; lia).
  rewrite E. simpl. lra.
Defined.

(** ** The daily series *)

Lemma Rsum_nonneg xs : Forall (fun x => 0 <= x) xs -> 0 <= Rsum xs.
Proof.
  induction 1 as [ | x rest Hx _ IH ]; cbn [Rsum]; lra.
Qed.

Lemma mean_nonneg xs : xs <> [] -> Forall (fun x => 0 <= x) xs -> 0 <= mean xs.
Proof.
  intros Hne Hall.
  assert (Hlen : 0 < INR (length xs)).
  { destruct xs as [ | x rest ]; [ congruence | ].
    apply lt_0_INR. simpl. lia. }
  assert (Hs := Rsum_nonneg Hall).
  unfold mean.
  apply Rmult_le_reg_r with (INR (length xs)); [ exact Hlen | ].
  unfold Rdiv. rewrite Rmult_assoc, Rinv_l by lra. lra.
Qed.

Lemma all_wpd_nonneg imgs :
  Forall (fun x => 0 <= x) (map WPD (map processImage imgs)).
Proof.
  induction imgs as [ | img rest IH ]; simpl; constructor.
  - apply wpd_nonneg.
  - exact IH.
Qed.

Lemma dayMeans_wpd_nonneg imgs m :
  dayMeans imgs = Some m -> 0 <= WPD m.
Proof.
  destruct imgs as [ | img rest ]; [ discriminate | ].
  unfold dayMeans. intros [= <-]. cbn [WPD].
  apply mean_nonneg.
  - discriminate.
  - apply (all_wpd_nonneg (img :: rest)).
Qed.

Lemma dayMeans_some_iff imgs :
  (exists m, dayMeans imgs = Some m) <-> imgs <> [].
Proof.
  destruct imgs as [ | img rest ]; split.
  - intros [m H]. discriminate.
  - intros H. congruence.
  - intros _. discriminate.
  - intros _. eexists. reflexivity.
Qed.

Lemma notNull_dayFeature ws n :
  notNull_WPD (dayFeature ws n) = true <-> ws n <> [].
Proof.
  unfold notNull_WPD, dayFeature; cbn [prop_WPD].
  destruct (ws n) as [ | img rest ]; cbn [dayMeans option_map].
  - split; [ discriminate | congruence ].
  - split; [ discriminate | reflexivity ].
Qed.

Lemma dailyData_In ws f :
  In f (dailyData ws) <->
  exists n, (n < 365)%nat /\ ws n <> [] /\ f = dayFeature ws n.
Proof.
  unfold dailyData. rewrite filter_In, in_map_iff. split.
  - intros [(n & <- & Hn) Hnn].
    apply in_seq in Hn. apply notNull_dayFeature in Hnn.
    exists n. repeat split; [ lia | exact Hnn ].
  - intros (n & Hn & Hne & ->). split.
    + exists n. split; [ reflexivity | apply in_seq; lia ].
    + apply notNull_dayFeature. exact Hne.
Qed.

Lemma dayFeature_bounds ws n :
  ws n <> [] ->
  exists x d,
    prop_WPD (dayFeature ws n) = Some x /\ 0 <= x /\
    prop_Daily_KWh_Per_Turbine (dayFeature ws n) = Some d /\
    0 <= d <= 24 * CONFIG.MAX_GENERATION_KW.
Proof.
  intros Hne. apply dayMeans_some_iff in Hne. destruct Hne as [m Hm].
  unfold dayFeature; cbn [prop_WPD prop_Daily_KWh_Per_Turbine].
  rewrite Hm. cbn [option_map].
  exists (WPD m), (Generation_KW m * 24).
  assert (Hw := dayMeans_wpd_nonneg _ Hm).
  assert (Hg := dayMeans_generation_bounds _ Hm).
  repeat split; try lra.
Qed.

(** X8: the series charted for a site holds one record for each of the 365
    days that has at least one weather image, and no record for a day
    without images: days with nothing to average are dropped, never
    averaged. *)
Theorem daily_records_are_days_with_images
        (ws : nat -> list WindImage) (f : Feature) :
  (In f (dailyData ws) <->
   exists n, (n < 365)%nat /\ ws n <> [] /\ f = dayFeature ws n) /\
  (length (dailyData ws) <= 365)%nat /\
  ((forall n, (n < 365)%nat -> ws n = []) -> dailyData ws = []).
Proof.
  split; [ apply dailyData_In | ].
  split.
  - unfold dailyData.
    eapply Nat.le_trans; [ apply filter_length_le | ].
    rewrite length_map, length_seq. apply Nat.le_refl.
  - intros Hall.
    destruct (dailyData ws) as [ | g rest ] eqn:E; [ reflexivity | ].
    assert (Hin : In g (dailyData ws)) by (rewrite E; left; reflexivity).
    apply dailyData_In in Hin. destruct Hin as (n & Hn & Hne & _).
    exfalso. apply Hne. apply Hall. exact Hn.
Qed.

Lemma daily_records_are_days_with_images_witness :
  dailyData (fun _ => []) = [].
Proof.
  apply (proj2 (proj2 (daily_records_are_days_with_images
                         (fun _ => []) (dayFeature (fun _ => []) 0)))).
  intros n _. reflexivity.
Defined.

Lemma dailyData_record_bounds ws f :
  In f (dailyData ws) ->
  exists x d,
    prop_WPD f = Some x /\ 0 <= x /\
    prop_Daily_KWh_Per_Turbine f = Some d /\
    0 <= d <= 24 * CONFIG.MAX_GENERATION_KW.
Proof.
  intros Hin. apply dailyData_In in Hin.
  destruct Hin as (n & _ & Hne & ->).
  apply dayFeature_bounds. exact Hne.
Qed.

(** X9: every record of the series has both properties present; its wind
    power density is non-negative and its daily energy per turbine lies
    between 0 and 72000 kWh, the nameplate held for 24 hours. *)
Theorem daily_record_bounds (ws : nat -> list WindImage) (f : Feature) :
  In f (dailyData ws) ->
  exists x d,
    prop_WPD f = Some x /\ 0 <= x /\
    prop_Daily_KWh_Per_Turbine f = Some d /\ 0 <= d <= 72000.
Proof.
  intros Hin.
  destruct (dailyData_record_bounds ws f Hin)
    as (x & d & Hx & Hx0 & Hd & Hd0).
  exists x, d. unfold CONFIG.MAX_GENERATION_KW in Hd0.
  repeat split; try assumption; lra.
Qed.

Lemma time_start_dayFeature ws n : time_start (dayFeature ws n) = n.
Proof. reflexivity. Qed.

Lemma seq_sorted len : forall start, StronglySorted lt (seq start len).
Proof.
  induction len as [ | len IH ]; intros start; cbn [seq].
  - constructor.
  - constructor; [ apply IH | ].
    apply Forall_forall. intros x Hx. apply in_seq in Hx. lia.
Qed.

Lemma filter_sorted (p : nat -> bool) l :
  StronglySorted lt l -> StronglySorted lt (filter p l).
Proof.
  induction 1 as [ | x rest Hs IH Hall ]; cbn [filter].
  - constructor.
  - destruct (p x); [ | exact IH ].
    constructor; [ exact IH | ].
    apply Forall_forall. intros y Hy. apply filter_In in Hy.
    destruct Hy as [Hy _].
    rewrite Forall_forall in Hall. apply Hall. exact Hy.
Qed.

Lemma dailyData_times ws :
  map time_start (dailyData ws)
  = filter (fun n => notNull_WPD (dayFeature ws n)) (seq 0 365).
Proof.
  unfold dailyData. generalize (seq 0 365) as l.
  induction l as [ | n rest IH ]; cbn [map filter]; [ reflexivity | ].
  destruct (notNull_WPD (dayFeature ws n)); cbn [map].
  - rewrite IH. reflexivity.
  - exact IH.
Qed.

(** X10: the records of the series are in chronological order, each day
    appearing at most once, with day numbers from 0 to 364. *)
Theorem daily_records_chronological (ws : nat -> list WindImage) :
  StronglySorted lt (map time_start (dailyData ws)) /\
  NoDup (map time_start (dailyData ws)) /\
  Forall (fun n => (n < 365)%nat) (map time_start (dailyData ws)).
Proof.
  rewrite dailyData_times.
  split; [ apply filter_sorted, seq_sorted | ].
  split.
  - apply NoDup_filter, seq_NoDup.
  - apply Forall_forall. intros n Hn.
    apply filter_In in Hn. destruct Hn as [Hn _].
    apply in_seq in Hn. lia.
Qed.

Lemma daily_record_bounds_witness :
  exists x d,
    prop_WPD (dayFeature (fun _ => [mkWind 3 4]) 0) = Some x /\ 0 <= x /\
    prop_Daily_KWh_Per_Turbine (dayFeature (fun _ => [mkWind 3 4]) 0)
    = Some d /\ 0 <= d <= 72000.
Proof.
  apply (daily_record_bounds (fun _ => [mkWind 3 4])).
  apply dailyData_In. exists 0%nat.
  repeat split; [ lia | discriminate ].
Defined.

(** ** The annual figures recorded by a click *)

Lemma propValues_Forall (P : R -> Prop) prop fs :
  (forall f x, In f fs -> prop f = Some x -> P x) ->
  Forall P (propValues prop fs).
Proof.
  induction fs as [ | f rest IH ]; intros H; cbn [propValues].
  - constructor.
  - assert (Hrest : Forall P (propValues prop rest)).
    { apply IH. intros g x Hg. apply H. right. exact Hg. }
    destruct (prop f) as [x | ] eqn:E; [ | exact Hrest ].
    constructor; [ | exact Hrest ].
    apply (H f x); [ left; reflexivity | exact E ].
Qed.

Lemma propValues_nonempty ws prop :
  dailyData ws <> [] ->
  (forall f, In f (dailyData ws) -> prop f <> None) ->
  propValues prop (dailyData ws) <> [].
Proof.
  intros Hne Hall E.
  assert (Hlen := propValues_length prop (dailyData ws) Hall).
  rewrite E in Hlen. cbn [length] in Hlen.
  destruct (dailyData ws); [ congruence | discriminate ].
Qed.

Lemma annual_wpd_nonneg ws :
  dailyData ws <> [] -> 0 <= aggregate_mean prop_WPD (dailyData ws).
Proof.
  intros Hne. unfold aggregate_mean. apply mean_nonneg.
  - apply propValues_nonempty; [ exact Hne | ].
    intros f Hf. apply (dailyData_complete _ _ Hf).
  - apply propValues_Forall. intros f x Hf Hx.
    destruct (dailyData_record_bounds ws f Hf) as (x' & d & Hx' & H0 & _).
    congruence.
Qed.

Lemma annual_kwh_bounds ws :
  dailyData ws <> [] ->
  0 <= aggregate_mean prop_Daily_KWh_Per_Turbine (dailyData ws)
    <= 24 * CONFIG.MAX_GENERATION_KW.
Proof.
  intros Hne. unfold aggregate_mean. apply mean_bounds.
  - apply propValues_nonempty; [ exact Hne | ].
    intros f Hf. apply (dailyData_complete _ _ Hf).
  - apply propValues_Forall. intros f d Hf Hd.
    destruct (dailyData_record_bounds ws f Hf) as (x & d' & _ & _ & Hd' & H).
    assert (d = d') by congruence. subst d'. exact H.
Qed.

(** ** What every session preserves *)

Lemma renderVisuals_cases w w' :
  renderVisuals w = Ok w' ->
  (APP.hasData (APP_STATE w) = false /\ w' = w) \/
  (APP.hasData (APP_STATE w) = true /\
   exists series,
     APP.timeSeriesData (APP_STATE w) = Some series /\
     w' = mkWorld (APP_STATE w) (turbSlider w) (loadSlider w)
                  (turbLabel w) (loadLabel w)
                  (renderedStats (APP_STATE w) (getValue (turbSlider w))
                                 (getValue (loadSlider w)))
                  (renderedCharts (getValue (turbSlider w))
                                  (getValue (loadSlider w)) series)
                  (renderedLayers (APP_STATE w) (getValue (turbSlider w))
                                  (getValue (loadSlider w)))).
Proof.
  unfold renderVisuals.
  destruct (APP.hasData (APP_STATE w)); cbn [negb].
  - destruct (APP.timeSeriesData (APP_STATE w)) as [series | ];
      [ | discriminate ].
    intros [= <-]. right. split; [ reflexivity | ].
    exists series. split; reflexivity.
  - intros [= <-]. left. split; reflexivity.
Qed.

Lemma displayed_after_render w w' :
  renderVisuals w = Ok w' ->
  (APP.hasData (APP_STATE w) = false -> idleDisplay w) ->
  displayed w'.
Proof.
  intros Hr Hidle.
  destruct (renderVisuals_cases _ Hr) as [[Eh ->] | (Eh & series & Es & ->)].
  - unfold displayed. rewrite Eh. apply Hidle. exact Eh.
  - unfold displayed. cbn [APP_STATE]. rewrite Eh.
    exists series. cbn [APP_STATE turbSlider loadSlider statsPanel
                        chartPanel layers].
    split; [ exact Es | ].
    split; [ reflexivity | ].
    split; [ reflexivity | left; reflexivity ].
Qed.

Lemma coherent_after_params w s1 s2 w' :
  coherent w ->
  renderVisuals
    (mkWorld (APP_STATE w) s1 s2
             (TurbLabel (getValue s1))
             (LoadLabel (getValue s2) (tierOf (getValue s2)))
             (statsPanel w) (chartPanel w) (layers w)) = Ok w' ->
  coherent w'.
Proof.
  intros (Hp & Hra & Hd & _) Hr.
  destruct (renderVisuals_keeps _ Hr) as (Es & Et & El & Etl & Ell).
  cbn [APP_STATE turbSlider loadSlider turbLabel loadLabel] in *.
  unfold coherent. rewrite Es.
  split; [ exact Hp | ].
  split; [ exact Hra | ].
  split.
  - apply (@displayed_after_render _ _ Hr).
    cbn [APP_STATE]. intros Eh.
    unfold displayed in Hd. rewrite Eh in Hd. exact Hd.
  - right. rewrite Et, El, Etl, Ell. split; reflexivity.
Qed.

Lemma coherent_after_clickStart point w :
  coherent w -> coherent (clickStart point w).
Proof.
  intros (_ & _ & _ & Hl).
  split; [ | split; [ | split ] ].
  - unfold plausible, CONFIG.MAX_GENERATION_KW;
      cbn [clickStart APP_STATE APP.wpd APP.kwhPerTurbine]. lra.
  - intros raster; cbn [clickStart APP_STATE APP.buildingRaster].
    discriminate.
  - unfold displayed, idleDisplay;
      cbn [clickStart APP_STATE APP.hasData chartPanel statsPanel layers
           APP.centerPoint].
    split; [ reflexivity | ].
    split; [ right; left; reflexivity | right; reflexivity ].
  - exact Hl.
Qed.

Lemma coherent_after_answer site w w' :
  coherent w -> onAnswer site w = Ok w' -> coherent w'.
Proof.
  intros (Hp & Hra & Hd & Hl) Hr.
  destruct (dailyData (weatherSeries site)) as [ | f rest ] eqn:E.
  - rewrite (onAnswer_no_data _ w E) in Hr. injection Hr as <-.
    split; [ exact Hp | ].
    split; [ exact Hra | ].
    split; [ | exact Hl ].
    unfold displayed in *. cbn [APP_STATE].
    destruct (APP.hasData (APP_STATE w)).
    + destruct Hd as (series & Es & Hc & Hlay & _).
      exists series.
      cbn [APP_STATE turbSlider loadSlider statsPanel chartPanel layers].
      split; [ exact Es | ].
      split; [ exact Hc | ].
      split; [ exact Hlay | right; reflexivity ].
    + destruct Hd as (Hc & _ & Hlay).
      unfold idleDisplay;
        cbn [APP_STATE statsPanel chartPanel layers].
      split; [ exact Hc | ].
      split; [ right; right; reflexivity | exact Hlay ].
  - assert (Hne : dailyData (weatherSeries site) <> [])
      by (rewrite E; discriminate).
    pose proof (@onAnswer_with_data site w Hne) as H1. cbv zeta in H1.
    rewrite H1 in Hr. injection Hr as <-.
    split; [ | split; [ | split ] ].
    + unfold plausible; cbn [APP_STATE APP.wpd APP.kwhPerTurbine].
      split; [ apply annual_wpd_nonneg | apply annual_kwh_bounds ];
        exact Hne.
    + intros raster; cbn [APP_STATE APP.buildingRaster].
      intros [= <-]. reflexivity.
    + unfold displayed, liveDisplay;
        cbn [APP_STATE APP.hasData APP.timeSeriesData chartPanel statsPanel
             layers turbSlider loadSlider].
      eexists. split; [ reflexivity | ].
      split; [ reflexivity | ].
      split; [ reflexivity | left; reflexivity ].
    + exact Hl.
Qed.

Lemma world0_coherent : coherent world0.
Proof.
  split; [ | split; [ | split ] ].
  - unfold plausible, CONFIG.MAX_GENERATION_KW; simpl. lra.
  - intros raster; simpl. discriminate.
  - unfold displayed, idleDisplay; simpl.
    repeat split; left; reflexivity.
  - left. repeat split.
Qed.

Lemma handle_coherent e w w' :
  coherent w -> handle e w = Ok w' -> coherent w'.
Proof.
  intros Hc. destruct e as [point | site | k | k]; cbn [handle].
  - intros [= <-]. apply coherent_after_clickStart. exact Hc.
  - intros Hr. exact (coherent_after_answer site Hc Hr).
  - destruct (moveTo (turbSlider w) k) as [s | ].
    + unfold onParamsChange; cbn [turbSlider loadSlider APP_STATE
                                   statsPanel chartPanel layers].
      intros Hr. exact (coherent_after_params _ _ Hc Hr).
    + intros [= <-]. exact Hc.
  - destruct (moveTo (loadSlider w) k) as [s | ].
    + unfold onParamsChange; cbn [turbSlider loadSlider APP_STATE
                                   statsPanel chartPanel layers].
      intros Hr. exact (coherent_after_params _ _ Hc Hr).
    + intros [= <-]. exact Hc.
Qed.

Lemma run_coherent es :
  forall w, consistent w -> coherent w ->
            exists w', run es w = Ok w' /\ consistent w' /\ coherent w'.
Proof.
  induction es as [ | e rest IH ]; intros w Hc Hk; cbn [run].
  - exists w. split; [ reflexivity | split; assumption ].
  - destruct (handle_consistent e Hc) as (w1 & Hh & Hc1).
    rewrite Hh. cbn [bind]. apply IH; [ exact Hc1 | ].
    apply (handle_coherent _ Hk Hh).
Qed.

Lemma session_coherent es :
  exists w, run es world0 = Ok w /\ consistent w /\ coherent w.
Proof.
  apply run_coherent; [ apply world0_consistent | apply world0_coherent ].
Qed.

(** X11: whatever the user clicks and moves, the figures recorded and
    derived stay physically possible: the mean power density is not
    negative, the mean daily energy per turbine is between 0 and 72000 kWh,
    the homes supported and the coverage ratio are not negative, and the
    capped ratio used as the lottery threshold is between 0 and 1. *)
Theorem session_figures_plausible (es : list Event) :
  exists w,
    run es world0 = Ok w /\
    let st := APP_STATE w in
    let n := getValue (turbSlider w) in
    let c := getValue (loadSlider w) in
    0 <= APP.wpd st /\
    0 <= APP.kwhPerTurbine st <= 72000 /\
    (0 <= homesSupported st n c)%Z /\
    0 <= coverageRatio st n c /\
    0 <= cappedRatio st n c <= 1.
Proof.
  destruct (session_coherent es) as (w & Hr & Hc & Hk).
  exists w. split; [ exact Hr | ]. cbv zeta.
  destruct Hk as ((Hw & Hkwh) & _).
  destruct Hc as ((_ & _ & _ & Ht & _) & (_ & _ & _ & Hl & _) & _).
  unfold CONFIG.MAX_GENERATION_KW in Hkwh. unfold getValue.
  assert (Hh : (0 <= homesSupported (APP_STATE w) (svalue (turbSlider w))
                                    (svalue (loadSlider w)))%Z)
    by (apply homesSupported_nonneg; lra).
  split; [ exact Hw | ].
  split; [ lra | ].
  split; [ exact Hh | ].
  split; [ apply coverageRatio_nonneg; exact Hh | ].
  apply cappedRatio_unit. exact Hh.
Qed.

(** X12: the charts and the map always follow the state.  In any
    sequence of clicks, answers arriving at any later time and slider moves:
    when data is loaded, both charts and the map layers are exactly what
    [renderVisuals] computes from the current [APP_STATE] and the current
    slider values, and the stats panel is that too or holds only the
    'No wind data' error of a late answer; when no data is loaded, nothing
    is charted, the stats panel is empty or holds only the scanning note or
    the error, and the map is empty or holds the marker of the stored
    centre point. *)
Theorem session_display_follows_state (es : list Event) :
  exists w,
    run es world0 = Ok w /\
    let st := APP_STATE w in
    let n := getValue (turbSlider w) in
    let c := getValue (loadSlider w) in
    (APP.hasData st = true /\
     exists series,
       APP.timeSeriesData st = Some series /\
       chartPanel w = renderedCharts n c series /\
       layers w = renderedLayers st n c /\
       (statsPanel w = renderedStats st n c \/
        statsPanel w = [NoWindData])) \/
    (APP.hasData st = false /\
     chartPanel w = [] /\
     (statsPanel w = [] \/ statsPanel w = [Scanning] \/
      statsPanel w = [NoWindData]) /\
     (layers w = [] \/ layers w = [TurbineLocation (APP.centerPoint st)])).
Proof.
  destruct (session_coherent es) as (w & Hr & _ & Hk).
  exists w. split; [ exact Hr | ]. cbv zeta.
  destruct Hk as (_ & _ & Hd & _).
  unfold displayed in Hd.
  destruct (APP.hasData (APP_STATE w)).
  - left. split; [ reflexivity | exact Hd ].
  - right. split; [ reflexivity | exact Hd ].
Qed.

(** X13: the two parameter labels are never stale: they are the initial
    texts while both sliders still hold their initial values 1 and 1.5, and
    after that they show the current number of turbines and the current
    load with its tier. *)
Theorem session_labels_current (es : list Event) :
  exists w,
    run es world0 = Ok w /\
    ((turbLabel w = TurbLabelInitial /\
      loadLabel w = LoadLabelInitial /\
      getValue (turbSlider w) = 1 /\
      getValue (loadSlider w) = 1.5) \/
     (turbLabel w = TurbLabel (getValue (turbSlider w)) /\
      loadLabel w = LoadLabel (getValue (loadSlider w))
                              (tierOf (getValue (loadSlider w))))).
Proof.
  destruct (session_coherent es) as (w & Hr & _ & Hk).
  exists w. split; [ exact Hr | ].
  destruct Hk as (_ & _ & _ & Hl). exact Hl.
Qed.


(** X15: after any session the '(Basic)' tier is shown for the household
    load only at the lowest stop of the load slider, 0.5 kWh/day, and the
    '(Heavy/Industrial)' tier from 5 kWh/day on. *)
Theorem session_load_tiers (es : list Event) :
  exists w,
    run es world0 = Ok w /\
    let load := getValue (loadSlider w) in
    (tierOf load = Basic <-> load = 0.5) /\
    (tierOf load = StandardHousehold <-> 1 <= load < 5) /\
    (tierOf load = HeavyIndustrial <-> 5 <= load).
Proof.
  destruct (session_coherent es) as (w & Hr & Hc & _).
  exists w. split; [ exact Hr | ]. cbv zeta.
  destruct Hc as (_ & (_ & _ & _ & Hl & k & Hk) & _).
  unfold getValue. set (load := svalue (loadSlider w)) in *.
  assert (Hmin : load < 1 <-> load = 0.5).
  { split; [ | lra ]. intros Hlt.
    destruct k as [ | k ]; [ simpl in Hk; lra | ].
    rewrite S_INR in Hk. assert (0 <= INR k) by apply pos_INR. lra. }
  unfold tierOf.
  destruct (Rlt_dec load 1) as [H1 | H1];
    [ | destruct (Rlt_dec load 5) as [H5 | H5] ].
  - destruct Hmin as [Hmin _]. specialize (Hmin H1).
    repeat split; intros; try discriminate; try lra.
  - repeat split; intros; try discriminate; try lra.
  - repeat split; intros; try discriminate; try lra.
Qed.

(** X16: moving a slider only re-renders: it never changes the data
    recorded in [APP_STATE], it leaves the other slider alone, and a stop
    beyond the slider's maximum changes nothing at all. *)
Theorem slider_moves_keep_data (k : nat) (w w' : World) :
  (handle (SlideTurbines k) w = Ok w' ->
   APP_STATE w' = APP_STATE w /\
   loadSlider w' = loadSlider w /\
   (smax (turbSlider w) < stop (turbSlider w) k -> w' = w)) /\
  (handle (SlideLoad k) w = Ok w' ->
   APP_STATE w' = APP_STATE w /\
   turbSlider w' = turbSlider w /\
   (smax (loadSlider w) < stop (loadSlider w) k -> w' = w)).
Proof.
  split; cbn [handle]; unfold moveTo.
  - destruct (Rle_dec (stop (turbSlider w) k) (smax (turbSlider w)))
      as [Hle | Hgt].
    + unfold onParamsChange. intros Hr.
      destruct (renderVisuals_keeps _ Hr) as (Es & _ & El & _).
      cbn [APP_STATE loadSlider] in Es, El.
      repeat split; try assumption. intros Hlt. lra.
    + intros [= <-]. repeat split.
  - destruct (Rle_dec (stop (loadSlider w) k) (smax (loadSlider w)))
      as [Hle | Hgt].
    + unfold onParamsChange. intros Hr.
      destruct (renderVisuals_keeps _ Hr) as (Es & Et & _ & _).
      cbn [APP_STATE turbSlider] in Es, Et.
      repeat split; try assumption. intros Hlt. lra.
    + intros [= <-]. repeat split.
Qed.

Lemma slider_moves_keep_data_witness :
  exists w',
    handle (SlideTurbines 20) world0 = Ok w' /\
    APP_STATE w' = APP_STATE world0 /\
    w' = world0.
Proof.
  destruct (handle_consistent (SlideTurbines 20) world0_consistent)
    as (w' & Hh & _).
  exists w'. split; [ exact Hh | ].
  destruct (proj1 (slider_moves_keep_data 20 world0 w') Hh)
    as (Es & _ & Hsame).
  split; [ exact Es | ].
  apply Hsame. unfold stop; simpl. lra.
Defined.

(** ** The houses chart against the headline figure *)

Lemma housesTotal_length n c fs :
  length (map (housesRow n c) fs) = length fs.
Proof. apply length_map. Qed.

Lemma housesTotal_cons n c f rest d :
  prop_Daily_KWh_Per_Turbine f = Some d ->
  housesTotal (map (housesRow n c) (f :: rest))
  = (Zfloor (d * n / c) + housesTotal (map (housesRow n c) rest))%Z.
Proof.
  intros Ed. cbn [map]. unfold housesRow at 1. rewrite Ed. reflexivity.
Qed.

Lemma housesTotal_bounds n c fs :
  (forall f, In f fs -> prop_Daily_KWh_Per_Turbine f <> None) ->
  let x := Rsum (propValues prop_Daily_KWh_Per_Turbine fs) * n / c in
  x - INR (length fs) <= IZR (housesTotal (map (housesRow n c) fs)) <= x /\
  (fs <> [] ->
   x - INR (length fs) < IZR (housesTotal (map (housesRow n c) fs))).
Proof.
  induction fs as [ | f rest IH ]; intros Hall; cbv zeta.
  - cbn [propValues Rsum map housesTotal length INR].
    split; [ | congruence ].
    unfold Rdiv. rewrite !Rmult_0_l. lra.
  - assert (Hrest : forall g, In g rest ->
                              prop_Daily_KWh_Per_Turbine g <> None)
      by (intros g Hg; apply Hall; right; exact Hg).
    specialize (IH Hrest). cbv zeta in IH. destruct IH as [IH _].
    destruct (prop_Daily_KWh_Per_Turbine f) as [d | ] eqn:Ed.
    + rewrite (housesTotal_cons n c f rest Ed).
      cbn [propValues length]. rewrite Ed. cbn [Rsum].
      rewrite plus_IZR, S_INR.
      assert (Hb := Zfloor_bound (d * n / c)).
      replace ((d + Rsum (propValues prop_Daily_KWh_Per_Turbine rest))
               * n / c)
        with (d * n / c
              + Rsum (propValues prop_Daily_KWh_Per_Turbine rest) * n / c)
        by (unfold Rdiv; ring).
      split; [ lra | intros _; lra ].
    + exfalso. apply (Hall f); [ left; reflexivity | exact Ed ].
Qed.

Lemma mean_total xs : xs <> [] -> Rsum xs = mean xs * INR (length xs).
Proof.
  intros Hne.
  assert (Hlen : 0 < INR (length xs)).
  { destruct xs as [ | x rest ]; [ congruence | ].
    apply lt_0_INR. simpl. lia. }
  unfold mean. revert Hlen.
  generalize (INR (length xs)) as days. generalize (Rsum xs) as total.
  intros total days Hdays. field. lra.
Qed.

Lemma houses_against_mean n c (series : list Feature) (h : Z) :
  series <> [] ->
  (forall f, In f series -> prop_Daily_KWh_Per_Turbine f <> None) ->
  IZR h <= aggregate_mean prop_Daily_KWh_Per_Turbine series * n / c
        < IZR h + 1 ->
  (Z.of_nat (length series) * (h - 1)
   < housesTotal (map (housesRow n c) series)
   < Z.of_nat (length series) * (h + 1))%Z.
Proof.
  intros Hne Hall Hf.
  destruct (housesTotal_bounds n c series Hall) as [[_ Hup] Hlo].
  specialize (Hlo Hne).
  assert (Hpv : propValues prop_Daily_KWh_Per_Turbine series <> []).
  { intros E.
    assert (Hl := propValues_length prop_Daily_KWh_Per_Turbine series Hall).
    rewrite E in Hl. destruct series; [ congruence | discriminate ]. }
  assert (Htot := mean_total Hpv).
  rewrite (propValues_length _ _ Hall) in Htot.
  fold (aggregate_mean prop_Daily_KWh_Per_Turbine series) in Htot.
  assert (Hlen : 0 < INR (length series)).
  { destruct series; [ congruence | ]. apply lt_0_INR. simpl. lia. }
  rewrite Htot in Hup, Hlo.
  revert Hf Hup Hlo.
  generalize (aggregate_mean prop_Daily_KWh_Per_Turbine series) as kwh.
  generalize (housesTotal (map (housesRow n c) series)) as total.
  rewrite INR_IZR_INZ in Hlen. revert Hlen. rewrite INR_IZR_INZ.
  generalize (Z.of_nat (length series)) as days.
  intros days Hdays total kwh Hf Hup Hlo.
  assert (Ex : kwh * IZR days * n / c = IZR days * (kwh * n / c))
    by (unfold Rdiv; ring).
  rewrite Ex in Hup, Hlo.
  split; apply lt_IZR; rewrite mult_IZR;
    [ rewrite minus_IZR | rewrite plus_IZR ]; nra.
Qed.

(** X17: the houses chart agrees with the headline figure.  After a click
    on a site with data the chart has one 'Houses_Powered' value per daily
    record, and their yearly average differs from the homes supported shown
    in the stats panel by less than one home. *)
Theorem houses_chart_matches_headline (site : Site) (w : World) :
  let series := dailyData (weatherSeries site) in
  let days := Z.of_nat (length series) in
  series <> [] ->
  exists w' rows wpdRows,
    onClick site w = Ok w' /\
    chartPanel w' = [HousesChart rows; WpdChart wpdRows] /\
    length rows = length series /\
    map fst rows = map time_start series /\
    let homes := homesSupported (APP_STATE w') (getValue (turbSlider w'))
                                (getValue (loadSlider w')) in
    (days * (homes - 1) < housesTotal rows < days * (homes + 1))%Z.
Proof.
  intros series days Hne.
  pose proof (@onClick_with_data site w Hne) as H1. cbv zeta in H1.
  fold series in H1.
  eexists. exists (map (housesRow (getValue (turbSlider w))
                                  (getValue (loadSlider w))) series).
  eexists.
  split; [ exact H1 | ].
  cbn [chartPanel APP_STATE turbSlider loadSlider].
  split; [ reflexivity | ].
  split; [ apply length_map | ].
  split.
  { rewrite map_map. reflexivity. }
  cbv zeta. apply houses_against_mean.
  - exact Hne.
  - intros f Hf. apply (dailyData_complete _ _ Hf).
  - apply Zfloor_bound.
Qed.

Lemma dailyData_nonempty ws n :
  (n < 365)%nat -> ws n <> [] -> dailyData ws <> [].
Proof.
  intros Hn Hne E.
  assert (Hin : In (dayFeature ws n) (dailyData ws)).
  { apply dailyData_In. exists n. repeat split; assumption. }
  rewrite E in Hin. destruct Hin.
Qed.

Lemma houses_chart_matches_headline_witness :
  let site := mkSite (0, 0) (fun _ => [mkWind 3 4]) (Some 100%Z) in
  let series := dailyData (weatherSeries site) in
  exists w' rows wpdRows,
    onClick site world0 = Ok w' /\
    chartPanel w' = [HousesChart rows; WpdChart wpdRows] /\
    length rows = length series /\
    map fst rows = map time_start series /\
    (Z.of_nat (length series)
     * (homesSupported (APP_STATE w') (getValue (turbSlider w'))
                       (getValue (loadSlider w')) - 1)
     < housesTotal rows
     < Z.of_nat (length series)
       * (homesSupported (APP_STATE w') (getValue (turbSlider w'))
                         (getValue (loadSlider w')) + 1))%Z.
Proof.
  intros site series.
  apply (houses_chart_matches_headline site world0).
  apply (@dailyData_nonempty _ 0%nat); [ lia | discriminate ].
Defined.

(** ** Resource quality *)


(** ** Before data is loaded *)





(** ** What a click records *)

(** X20: a click on a site with wind data records the building count the
    platform returned, and 0 when the count dictionary or its
    [building_presence] entry is missing; it marks the data as loaded,
    stores the clicked point, and leaves both sliders and both parameter
    labels untouched. *)
Theorem click_records_site (site : Site) (w : World) :
  dailyData (weatherSeries site) <> [] ->
  exists w',
    onClick site w = Ok w' /\
    APP.hasData (APP_STATE w') = true /\
    APP.centerPoint (APP_STATE w') = Some (coords site) /\
    (forall count, bCount site = Some count ->
                   APP.buildings (APP_STATE w') = count) /\
    (bCount site = None -> APP.buildings (APP_STATE w') = 0%Z) /\
    turbSlider w' = turbSlider w /\ loadSlider w' = loadSlider w /\
    turbLabel w' = turbLabel w /\ loadLabel w' = loadLabel w.
Proof.
  intros Hne.
  eexists. split; [ apply onClick_with_data; exact Hne | ].
  cbn [APP_STATE APP.hasData APP.centerPoint APP.buildings
       turbSlider loadSlider turbLabel loadLabel].
  repeat split.
  - intros count E. rewrite E. cbn [buildingsOf].
    destruct (count =? 0)%Z eqn:E0; [ | reflexivity ].
    apply Z.eqb_eq in E0. congruence.
  - intros E. rewrite E. reflexivity.
Qed.

Lemma click_records_site_witness :
  exists w',
    onClick (mkSite (0, 0) (fun _ => [mkWind 3 4]) None) world0 = Ok w' /\
    APP.buildings (APP_STATE w') = 0%Z.
Proof.
  destruct (@click_records_site
              (mkSite (0, 0) (fun _ => [mkWind 3 4]) None) world0)
    as (w' & Hr & _ & _ & _ & Hnone & _).
  - apply (@dailyData_nonempty _ 0%nat); [ lia | discriminate ].
  - exists w'. split; [ exact Hr | apply Hnone; reflexivity ].
Defined.

(** ** Overlapping clicks *)








